(** * Batch scrape orchestrator: samples/scrape_person_contacts.py

    A shallow embedding of [main] of samples/scrape_person_contacts.py and
    the properties of its worklist filter, its per-candidate step, its
    pacing and its browser scope.

    Scope of the model.
    - Text is ASCII text ([string]); [str.lower] and [str.strip] are the
      restrictions of Python's to that range.  No character outside ASCII
      lower-cases to one of y, e, s, so the comparison with "yes" is the
      same on the whole of Unicode.
    - A spreadsheet cell is NaN, None, a str, an int or a bool; floats other
      than NaN are left out.
    - The collaborators (pandas reader, BrowserManager, PersonScraper, the
      page) are an oracle [World]; every call is logged in a trace and each
      answer may depend on the trace so far.
    - What [except Exception] catches is an [Exn]; interpreter signals
      (KeyboardInterrupt, CancelledError) are not modelled, and neither is a
      failure of BrowserManager's own __aenter__/__aexit__. *)

From Stdlib Require Import String Ascii List Arith Bool Lia ZArith QArith.
From Stdlib Require Import Numbers.DecimalString Numbers.DecimalNat Sorting.Sorted.
Import ListNotations.
Open Scope string_scope.
Open Scope list_scope.
Open Scope nat_scope.

(** ** Python text primitives *)

Module PyStr.

(** One character of [str.lower()]. *)
Definition lower_ascii (c : ascii) : ascii :=
  let n := nat_of_ascii c in
  if ((65 <=? n) && (n <=? 90))%nat then ascii_of_nat (n + 32) else c.

(** [s.lower()] *)
Fixpoint lower (s : string) : string :=
  match s with
  | EmptyString => EmptyString
  | String c s' => String (lower_ascii c) (lower s')
  end.

(** [c.isspace()] on ASCII: tab, newline, VT, FF, CR, the four separators
    0x1c..0x1f and the blank. *)
Definition isspace (c : ascii) : bool :=
  let n := nat_of_ascii c in
  (((9 <=? n) && (n <=? 13)) || ((28 <=? n) && (n <=? 31)) || (n =? 32))%nat.

(** [s.lstrip()] *)
Fixpoint lstrip (s : string) : string :=
  match s with
  | EmptyString => EmptyString
  | String c s' => if isspace c then lstrip s' else s
  end.

(** [s.rstrip()] *)
Fixpoint rstrip (s : string) : string :=
  match s with
  | EmptyString => EmptyString
  | String c s' =>
      match rstrip s' with
      | EmptyString => if isspace c then EmptyString else String c EmptyString
      | r => String c r
      end
  end.

(** [s.strip()] *)
Definition strip (s : string) : string := rstrip (lstrip s).

(** [s[:n]] *)
Definition take (n : nat) (s : string) : string := substring 0 n s.

(** [c * n] for a one-character string [c] *)
Fixpoint repeat_char (c : ascii) (n : nat) : string :=
  match n with
  | O => EmptyString
  | S n' => String c (repeat_char c n')
  end.

(** [str(n)] for a non-negative int *)
Definition of_nat (n : nat) : string := NilZero.string_of_uint (Nat.to_uint n).

(** [str(z)] for an int *)
Definition of_Z (z : Z) : string := NilZero.string_of_int (Z.to_int z).


End PyStr.

(** ** Cells of the sheet *)

Inductive Cell : Type :=
| CNaN                 (* float('nan'): an empty spreadsheet cell *)
| CNone                (* None: what [row.get] gives for an absent column *)
| CStr (s : string)
| CInt (z : Z)
| CBool (b : bool).

(** [str(v)], also what an f-string does with [{v}]. *)
Definition py_str (v : Cell) : string :=
  match v with
  | CNaN => "nan"
  | CNone => "None"
  | CStr s => s
  | CInt z => PyStr.of_Z z
  | CBool true => "True"
  | CBool false => "False"
  end.

(** [bool(v)]: NaN is a non-zero float, hence true. *)
Definition truthy (v : Cell) : bool :=
  match v with
  | CNaN => true
  | CNone => false
  | CStr s => negb (s =? "")%string
  | CInt z => negb (z =? 0)%Z
  | CBool b => b
  end.

(** [pd.isna(v)] *)
Definition isna (v : Cell) : bool :=
  match v with
  | CNaN | CNone => true
  | _ => false
  end.

(** [.fillna("")] on one value *)
Definition fillna_empty (v : Cell) : Cell :=
  if isna v then CStr "" else v.

(** One row of the sheet, by the three columns [main] reads. *)
Record Row : Type := mkRow {
  Nama_Mahasiswa : Cell;
  LinkedIn : Cell;
  Conclusion : Cell
}.

(** The frame [pd.read_excel] returns: its rows in sheet order (the index is
    the default RangeIndex) and whether it has a "Conclusion" column. *)
Record DataFrame : Type := mkDF {
  has_Conclusion : bool;
  rows : list Row
}.

(** [df["Conclusion"].fillna("").astype(str).str.lower() == "yes"], the
    mask of line 35, at one row. *)
Definition conclusion_is_yes (r : Row) : bool :=
  (PyStr.lower (py_str (fillna_empty (Conclusion r))) =? "yes")%string.

(** [df.iterrows()]: rows paired with their index labels. *)
Definition iterrows (df : DataFrame) : list (nat * Row) :=
  combine (seq 0 (length (rows df))) (rows df).

(** [df[mask].copy()]: the retained rows keep their labels and order. *)
Definition candidates_of (df : DataFrame) : list (nat * Row) :=
  filter (fun ir => conclusion_is_yes (snd ir)) (iterrows df).

(** The guard of line 70, [not linkedin_url or pd.isna(linkedin_url)]. *)
Definition no_linkedin_url (v : Cell) : bool :=
  negb (truthy v) || isna v.

(** Line 75, [str(linkedin_url).strip()]. *)
Definition clean_url (v : Cell) : string := PyStr.strip (py_str v).

(** ** What the collaborators hand back *)

(** An exception instance: [type(e).__name__] and [str(e)]. *)
Record Exn : Type := mkExn {
  exn_type : string;
  exn_msg : string
}.

(** Modelled from the spec: an entry of the profile's experience sequence,
    whose class is not part of the sources, by the two attributes [main]
    prints. *)
Record Experience : Type := mkExperience {
  position_title : string;
  exp_institution_name : string
}.

(** Modelled from the spec: an entry of the profile's education sequence,
    whose class is not part of the sources, by the attribute [main]
    prints. *)
Record Education : Type := mkEducation {
  edu_institution_name : string
}.

(** Modelled from the spec: the class of [linkedin_scraper]'s scraped
    profile is not part of the sources; the spec gives it a name, a
    location, an about-text that may be absent, and the ordered
    experience and education entries, which are the attributes [main]
    reads. *)
Record Person : Type := mkPerson {
  name : string;
  location : string;
  about : option string;
  experiences : list Experience;
  educations : list Education
}.

(** ** Console lines *)

(** Every [print] of [main], by the line of the source it stands on. *)
Inductive Line : Type :=
| LNotFound (excel_path : string)                 (* 24 *)
| LReading (excel_path : string)                  (* 27 *)
| LFound (n : nat)                                (* 37 *)
| LReadError (e : Exn)                            (* 40 *)
| LNoCandidates                                   (* 44 *)
| LSessionLoaded                                  (* 59 *)
| LSessionWarning (e : Exn)                       (* 61 *)
| LSkipping (nm : Cell)                           (* 71 *)
| LProcessing (index : nat) (nm : Cell)           (* 77 *)
| LScraping (url : string)                        (* 78 *)
| LSuccess (current_url : string)                 (* 86 *)
| LRule                                           (* 89, 103 *)
| LPerson (nm : string)                           (* 90 *)
| LLocation (loc : string)                        (* 91 *)
| LAbout (txt : string)                           (* 92 *)
| LWorkCount (n : nat)                            (* 95 *)
| LWorkEntry (title inst : string)                (* 97 *)
| LEduCount (n : nat)                             (* 100 *)
| LEduEntry (inst : string)                       (* 102 *)
| LFailed (nm : Cell)                             (* 109 *)
| LErrorType (ty : string)                        (* 110 *)
| LErrorMsg (msg : string)                        (* 111 *)
| LBrowserUrl (current_url : string)              (* 112 *)
| LScreenshotSaved (index : nat)                  (* 116 *)
| LDone.                                          (* 120 *)

Definition nl : string := String (ascii_of_nat 10) "".

(** The text each line puts on the console. *)
Definition render (l : Line) : string :=
  (match l with
  | LNotFound p => "Error: Could not find " ++ p
  | LReading p => "Reading data from: " ++ p
  | LFound n =>
      "Found " ++ PyStr.of_nat n ++ " candidates to scrape from 2013 sheet."
  | LReadError e => "Error reading Excel file: " ++ exn_msg e
  | LNoCandidates => "No candidates found with Conclusion = 'Yes'."
  | LSessionLoaded => "✓ Session loaded"
  | LSessionWarning e =>
      "Warning: Could not load session (" ++ exn_msg e
        ++ "). You might need to login manually."
  | LSkipping nm => "Skipping " ++ py_str nm ++ ": No LinkedIn URL found"
  | LProcessing i nm =>
      nl ++ "[" ++ PyStr.of_nat (i + 1) ++ "] Processing: " ++ py_str nm
  | LScraping url => "🚀 Scraping: " ++ url
  | LSuccess u => "✓ Success! Current URL: " ++ u
  | LRule => PyStr.repeat_char "-" 40
  | LPerson nm => "Person: " ++ nm
  | LLocation loc => "Location: " ++ loc ++ " "
  | LAbout txt => "About: " ++ txt ++ "..."
  | LWorkCount n => "Work Experience (" ++ PyStr.of_nat n ++ " positions):"
  | LWorkEntry t i => "  - " ++ t ++ " at " ++ i
  | LEduCount n => "Education (" ++ PyStr.of_nat n ++ " schools):"
  | LEduEntry i => "  - " ++ i
  | LFailed nm => "❌ Failed to scrape " ++ py_str nm
  | LErrorType ty => "🔴 Error type: " ++ ty
  | LErrorMsg msg => "🔴 Error: " ++ msg
  | LBrowserUrl u => "🌐 Current URL in browser: " ++ u
  | LScreenshotSaved i =>
      "📸 Screenshot saved as error_" ++ PyStr.of_nat i ++ ".png"
  | LDone => nl ++ "✓ Batch processing done!"
  end)%string.

(** ** Effects *)

(** The argument of [asyncio.sleep]: a literal number of seconds, or
    [random.uniform(lo, hi)]. *)
Inductive Duration : Type :=
| Fixed (seconds : nat)
| Uniform (lo hi : Q).

Inductive Event : Type :=
| EPrint (l : Line)
| EBrowserOpen (headless : bool) (args : list string)
| ELoadSession (path : string) (restored : bool)
| EScrape (url : string)
| ESleep (d : Duration)
| EScreenshot (path : string)
| EBrowserClose.

Definition Trace : Type := list Event.

(** The outside world.  Calls made while the browser is open answer from
    the trace so far, so that an answer may depend on everything that
    happened before it. *)
Record World : Type := mkWorld {
  root_dir : string;
  path_exists : bool;                              (* excel_path.exists() *)
  read_excel : Exn + DataFrame;                    (* pd.read_excel(...) *)
  load_session : Trace -> option Exn;              (* browser.load_session *)
  scrape : Trace -> string -> Exn + Person;        (* scraper.scrape *)
  page_url : Trace -> string;                      (* browser.page.url *)
  screenshot : Trace -> string -> option Exn       (* page.screenshot *)
}.

(** How a coroutine ends. *)
Inductive Outcome (A : Type) : Type :=
| Returned (a : A)
| Raised (e : Exn).
Arguments Returned {A} a.
Arguments Raised {A} e.

(** A coroutine: given the history (the trace up to its start) it yields
    the events it adds and its outcome.  What was logged stays logged when
    it raises. *)
Definition Task (A : Type) : Type := Trace -> Trace * Outcome A.

Definition ret {A} (a : A) : Task A := fun _ => ([], Returned a).

Definition raise {A} (e : Exn) : Task A := fun _ => ([], Raised e).

Definition bind {A B} (m : Task A) (k : A -> Task B) : Task B :=
  fun h =>
    match m h with
    | (ev, Returned a) =>
        let (ev', r) := k a (h ++ ev) in (ev ++ ev', r)
    | (ev, Raised e) => (ev, Raised e)
    end.

(** [try: m  except Exception as e: h e] *)
Definition try_except {A} (m : Task A) (handler : Exn -> Task A) : Task A :=
  fun h =>
    match m h with
    | (ev, Returned a) => (ev, Returned a)
    | (ev, Raised e) =>
        let (ev', r) := handler e (h ++ ev) in (ev ++ ev', r)
    end.

Declare Scope task_scope.
Delimit Scope task_scope with task.
Notation "x <- m ;; k" := (bind m (fun x => k))
  (at level 100, m at next level, right associativity) : task_scope.
Notation "m ;; k" := (bind m (fun _ => k))
  (at level 100, right associativity) : task_scope.
Open Scope task_scope.

Definition emit (e : Event) : Task unit := fun _ => ([e], Returned tt).

Definition print (l : Line) : Task unit := emit (EPrint l).

Definition sleep (d : Duration) : Task unit := emit (ESleep d).

(** [for a in l: body a] *)
Fixpoint for_each {A} (body : A -> Task unit) (l : list A) : Task unit :=
  match l with
  | [] => ret tt
  | a :: l' => body a ;; for_each body l'
  end.

(** [for x in l: print(line x)] *)
Definition print_each {A} (line : A -> Line) (l : list A) : Task unit :=
  for_each (fun x => print (line x)) l.

(** ** The program *)

(** The [args] of line 49. *)
Definition browser_args : list string :=
  ["--disable-dev-shm-usage";
   "--disable-blink-features=AutomationControlled";
   "--disable-web-security";
   "--disable-features=IsolateOrigins,site-per-process";
   "--no-sandbox"]%string.

Definition session_file : string := "linkedin_session.json".

(** [root_dir / "Alumni Shared.xlsx"] *)
Definition excel_path (w : World) : string :=
  (root_dir w ++ "/Alumni Shared.xlsx")%string.

(** [f"error_{index}.png"] *)
Definition error_png (index : nat) : string :=
  ("error_" ++ PyStr.of_nat index ++ ".png")%string.

(** [person.about[:100] if person.about else 'N/A'] *)
Definition about_text (p : Person) : string :=
  match about p with
  | None => "N/A"
  | Some s => if (s =? "")%string then "N/A" else PyStr.take 100 s
  end%string.

(** Lines 89 to 103. *)
Definition show_person (p : Person) : Task unit :=
  print LRule;;
  print (LPerson (name p));;
  print (LLocation (location p));;
  print (LAbout (about_text p));;
  print (LWorkCount (length (experiences p)));;
  print_each (fun exp => LWorkEntry (position_title exp) (exp_institution_name exp))
             (firstn 2 (experiences p));;
  print (LEduCount (length (educations p)));;
  print_each (fun edu => LEduEntry (edu_institution_name edu))
             (firstn 2 (educations p));;
  print LRule.

Section Program.

Variable w : World.

(** [await browser.load_session("linkedin_session.json")] *)
Definition do_load_session : Task unit := fun h =>
  match load_session w h with
  | None => ([ELoadSession session_file true], Returned tt)
  | Some e => ([ELoadSession session_file false], Raised e)
  end.

(** [await scraper.scrape(linkedin_url)] *)
Definition do_scrape (url : string) : Task Person := fun h =>
  ([EScrape url],
   match scrape w h url with
   | inl e => Raised e
   | inr p => Returned p
   end).

(** [browser.page.url] *)
Definition current_url : Task string := fun h =>
  ([], Returned (page_url w h)).

(** [await browser.page.screenshot(path=...)] *)
Definition do_screenshot (path : string) : Task unit := fun h =>
  ([EScreenshot path],
   match screenshot w h path with
   | Some e => Raised e
   | None => Returned tt
   end).

(** The [try] suite, lines 83 to 106. *)
Definition try_suite (linkedin_url : string) : Task unit :=
  person <- do_scrape linkedin_url;;
  sleep (Fixed 15);;
  u <- current_url;;
  print (LSuccess u);;
  show_person person;;
  sleep (Uniform 2.2 4.313).

(** The [except Exception as e] suite, lines 109 to 118. *)
Definition except_suite (index : nat) (nm : Cell) (e : Exn) : Task unit :=
  print (LFailed nm);;
  print (LErrorType (exn_type e));;
  print (LErrorMsg (exn_msg e));;
  u <- current_url;;
  print (LBrowserUrl u);;
  do_screenshot (error_png index);;
  print (LScreenshotSaved index).

(** The body of the [for] loop, lines 67 to 118. *)
Definition loop_body (ir : nat * Row) : Task unit :=
  let (index, row) := ir in
  let nm := Nama_Mahasiswa row in
  let linkedin_url := LinkedIn row in
  if no_linkedin_url linkedin_url then
    print (LSkipping nm)
  else
    let linkedin_url := clean_url linkedin_url in
    print (LProcessing index nm);;
    print (LScraping linkedin_url);;
    try_except (try_suite linkedin_url) (except_suite index nm).

(** [async with BrowserManager(...) as browser: body]; the manager is
    left on the way out whether [body] returned or raised, and what
    [body] raised is raised again. *)
Definition async_with_BrowserManager (body : Task unit) : Task unit :=
  fun h =>
    let opened := [EBrowserOpen false browser_args] in
    let (ev, r) := body (h ++ opened) in
    (opened ++ ev ++ [EBrowserClose], r).

(** Lines 57 to 61. *)
Definition restore_session : Task unit :=
  try_except (do_load_session;; print LSessionLoaded)
             (fun e => print (LSessionWarning e)).

(** Lines 31 and 35: the sheet is read and filtered; a frame without a
    "Conclusion" column raises KeyError at the subscript. *)
Definition read_candidates : Exn + list (nat * Row) :=
  match read_excel w with
  | inl e => inl e
  | inr df =>
      if has_Conclusion df then inr (candidates_of df)
      else inl (mkExn "KeyError" "'Conclusion'")
  end.

(** The suite of the [async with], lines 56 to 118. *)
Definition batch (candidates : list (nat * Row)) : Task unit :=
  restore_session;;
  for_each loop_body candidates.

Definition main : Task unit :=
  if negb (path_exists w) then
    print (LNotFound (excel_path w))
  else
    print (LReading (excel_path w));;
    match read_candidates with
    | inl e => print (LReadError e)
    | inr candidates =>
        print (LFound (length candidates));;
        match candidates with
        | [] => print LNoCandidates
        | _ :: _ =>
            async_with_BrowserManager (batch candidates);;
            print LDone
        end
    end.

End Program.

(** The run of [main] in a world: its trace and how it ended. *)
Definition run (w : World) : Trace * Outcome unit := main w [].

(** The console after a run. *)
Definition console (tr : Trace) : list string :=
  flat_map (fun e => match e with EPrint l => [render l] | _ => [] end) tr.

Module Scenario.

Definition alice : Row := mkRow (CStr "Alice") (CStr "https://x/a") (CStr "Yes").
Definition bob : Row := mkRow (CStr "Bob") (CStr "https://x/b") (CStr "No").
Definition carol : Row := mkRow (CStr "Carol") CNaN (CStr "YES").
Definition dave : Row := mkRow (CStr "Dave") (CStr "https://x/d") (CStr "yes").

Definition sheet : DataFrame := mkDF true [alice; bob; carol; dave].

Definition profile : Person :=
  mkPerson "Alice A." "Jakarta" (Some "Engineer")
           [mkExperience "SWE" "Acme"; mkExperience "Intern" "Beta";
            mkExperience "TA" "Campus"]
           [mkEducation "ITB"].

Definition timeout : Exn := mkExn "TimeoutError" "Timeout 30000ms exceeded".
Definition closed : Exn := mkExn "Error" "Target page has been closed".

(** Everything works. *)
Definition fine : World :=
  mkWorld "/repo" true (inr sheet)
          (fun _ => None)
          (fun _ _ => inr profile)
          (fun _ => "https://x/current")
          (fun _ _ => None).

(** Every scrape times out; screenshots work. *)
Definition timing_out : World :=
  mkWorld "/repo" true (inr sheet)
          (fun _ => None)
          (fun _ _ => inl timeout)
          (fun _ => "https://x/login")
          (fun _ _ => None).

(** Alice's page times out, every other page loads; screenshots work. *)
Definition alice_down : World :=
  mkWorld "/repo" true (inr sheet)
          (fun _ => None)
          (fun _ url => if (url =? "https://x/a")%string then inl timeout
                        else inr profile)
          (fun _ => "https://x/current")
          (fun _ _ => None).

(** Every scrape times out and the page cannot take a screenshot. *)
Definition page_gone : World :=
  mkWorld "/repo" true (inr sheet)
          (fun _ => None)
          (fun _ _ => inl timeout)
          (fun _ => "about:blank")
          (fun _ _ => Some closed).

End Scenario.

(** ** Reading a trace *)

(** The outcome lines: one per row that was skipped, scraped or failed. *)
Definition is_outcome (l : Line) : bool :=
  match l with
  | LSkipping _ | LSuccess _ | LFailed _ => true
  | _ => false
  end.

Definition outcomes (tr : Trace) : list Line :=
  flat_map (fun e => match e with
                     | EPrint l => if is_outcome l then [l] else []
                     | _ => []
                     end) tr.

(** The URLs handed to the scraper, in order. *)
Definition scrapes (tr : Trace) : list string :=
  flat_map (fun e => match e with EScrape u => [u] | _ => [] end) tr.

(** The arguments of [asyncio.sleep], in order. *)
Definition sleeps (tr : Trace) : list Duration :=
  flat_map (fun e => match e with ESleep d => [d] | _ => [] end) tr.

(** The screenshot paths asked for, in order. *)
Definition screenshots (tr : Trace) : list string :=
  flat_map (fun e => match e with EScreenshot f => [f] | _ => [] end) tr.

(** Events that need an open browser. *)
Definition uses_browser (e : Event) : bool :=
  match e with
  | ELoadSession _ _ | EScrape _ | EScreenshot _ => true
  | _ => false
  end.

(** Walks a trace with the browser [open] or not: [None] when a browser is
    opened twice, closed while shut or used while shut; otherwise whether
    it is open at the end. *)
Fixpoint browser_after (open : bool) (tr : Trace) : option bool :=
  match tr with
  | [] => Some open
  | EBrowserOpen _ _ :: tr' => if open then None else browser_after true tr'
  | EBrowserClose :: tr' => if open then browser_after false tr' else None
  | e :: tr' =>
      if uses_browser e && negb open then None else browser_after open tr'
  end.

(** ** What one pass of the loop does

    The events of a pass, written out from what the world answers. *)

(** Lines 77 and 78. *)
Definition announce (index : nat) (row : Row) : Trace :=
  [EPrint (LProcessing index (Nama_Mahasiswa row));
   EPrint (LScraping (clean_url (LinkedIn row)))].

(** The lines of [show_person]. *)
Definition report (p : Person) : list Line :=
  [LRule; LPerson (name p); LLocation (location p); LAbout (about_text p);
   LWorkCount (length (experiences p))]
  ++ map (fun exp => LWorkEntry (position_title exp) (exp_institution_name exp))
         (firstn 2 (experiences p))
  ++ [LEduCount (length (educations p))]
  ++ map (fun edu => LEduEntry (edu_institution_name edu))
         (firstn 2 (educations p))
  ++ [LRule].

(** A pass whose scrape returned [p]. *)
Definition success_events (w : World) (h : Trace) (index : nat) (row : Row)
    (p : Person) : Trace :=
  let url := clean_url (LinkedIn row) in
  let upto := announce index row ++ [EScrape url; ESleep (Fixed 15)] in
  upto ++ [EPrint (LSuccess (page_url w (h ++ upto)))]
       ++ map EPrint (report p)
       ++ [ESleep (Uniform 2.2 4.313)].

(** A pass whose scrape raised [e], up to the line before the screenshot. *)
Definition failure_lines (w : World) (h : Trace) (index : nat) (row : Row)
    (e : Exn) : Trace :=
  let url := clean_url (LinkedIn row) in
  let upto := announce index row
              ++ [EScrape url;
                  EPrint (LFailed (Nama_Mahasiswa row));
                  EPrint (LErrorType (exn_type e));
                  EPrint (LErrorMsg (exn_msg e))] in
  upto ++ [EPrint (LBrowserUrl (page_url w (h ++ upto)))].

(** ** Which rows are attempted *)

(** A row is attempted: the mask of line 35 retains it and the loop body,
    run on it after history [h], calls the scraper. *)
Definition attempted (w : World) (h : Trace) (ir : nat * Row) : bool :=
  conclusion_is_yes (snd ir)
  && match scrapes (fst (loop_body w ir h)) with
     | [] => false
     | _ :: _ => true
     end.

(** The specification's wording of the same: the conclusion, absent taken
    as the empty string, trimmed and case-folded, is "yes", and the profile
    URL is present and no missing-value marker. *)
Definition spec_yields_candidate (r : Row) : bool :=
  (PyStr.lower (PyStr.strip (py_str (fillna_empty (Conclusion r)))) =? "yes")%string
  && negb (isna (LinkedIn r)).

(** A row whose conclusion cell carries a blank before the word. *)
Definition padded_yes : Row :=
  mkRow (CStr "Erin") (CStr "https://x/e") (CStr " Yes").

(** ** Landmarks of a run *)

(** The first two lines of a run that got as far as counting. *)
Definition preamble (w : World) (n : nat) : Trace :=
  [EPrint (LReading (excel_path w)); EPrint (LFound n)].

Definition opened : Trace := [EBrowserOpen false browser_args].

(** The two reports of a source that cannot be used, lines 24 and 40. *)
Definition is_source_error (l : Line) : bool :=
  match l with
  | LNotFound _ | LReadError _ => true
  | _ => false
  end.

(** Events that open, use or close a browser. *)
Definition touches_browser (e : Event) : bool :=
  match e with
  | EBrowserOpen _ _ | EBrowserClose => true
  | _ => uses_browser e
  end.

(** Scans a trace for pacing between scrapes.  [owed] holds from a scrape
    until the next [sleep(random.uniform(2.2, 4.313))]; the scan fails when
    a scrape starts while pacing is owed. *)
Fixpoint paced (owed : bool) (tr : Trace) : bool :=
  match tr with
  | [] => true
  | EScrape _ :: tr' => negb owed && paced true tr'
  | ESleep (Uniform lo hi) :: tr' =>
      paced (owed && negb (Qeq_bool lo 2.2 && Qeq_bool hi 4.313)) tr'
  | _ :: tr' => paced owed tr'
  end.

(** What a pass hands to the scraper, by the guard of line 70 alone. *)
Definition url_of_pass (ir : nat * Row) : list string :=
  if no_linkedin_url (LinkedIn (snd ir)) then []
  else [clean_url (LinkedIn (snd ir))].

(** ** Worlds and rows for the examples *)

Module Unreadable.

(** The workbook is not there. *)
Definition missing : World :=
  mkWorld "/repo" false (inr Scenario.sheet)
          (fun _ => None) (fun _ _ => inr Scenario.profile)
          (fun _ => "about:blank"%string) (fun _ _ => None).

(** The workbook is there but has no sheet "2013". *)
Definition no_sheet : World :=
  mkWorld "/repo" true
          (inl (mkExn "ValueError" "Worksheet named '2013' not found"))
          (fun _ => None) (fun _ _ => inr Scenario.profile)
          (fun _ => "about:blank"%string) (fun _ _ => None).

(** The sheet has no "Conclusion" column. *)
Definition no_column : World :=
  mkWorld "/repo" true (inr (mkDF false [Scenario.alice]))
          (fun _ => None) (fun _ _ => inr Scenario.profile)
          (fun _ => "about:blank"%string) (fun _ _ => None).

End Unreadable.

Module NoSession.

Definition no_file : Exn :=
  mkExn "FileNotFoundError" "Session file not found: linkedin_session.json".

(** The session file cannot be loaded; everything else works. *)
Definition world : World :=
  mkWorld "/repo" true (inr Scenario.sheet)
          (fun _ => Some no_file)
          (fun _ _ => inr Scenario.profile)
          (fun _ => "https://x/authwall"%string)
          (fun _ _ => None).

End NoSession.

Module Blank.

(** A retained row whose LinkedIn cell holds a blank and a tab. *)
Definition row : Row :=
  mkRow (CStr "Frank") (CStr (String " " (String (ascii_of_nat 9) "")))
        (CStr "yes").

End Blank.

Module SpecScenario.

(** The sheet of the specification's scenario A. *)
Definition sheet : DataFrame :=
  mkDF true [Scenario.alice; Scenario.bob; Scenario.carol].

Definition succeeding : World :=
  mkWorld "/repo" true (inr sheet) (fun _ => None)
          (fun _ _ => inr Scenario.profile)
          (fun _ => "https://x/a"%string) (fun _ _ => None).

Definition failing : World :=
  mkWorld "/repo" true (inr sheet) (fun _ => None)
          (fun _ _ => inl Scenario.timeout)
          (fun _ => "https://x/a"%string) (fun _ _ => None).

End SpecScenario.

(** ** More readings of a trace *)

(** The sleeps an outcome line stands for: the settle delay and the pacing
    delay of a success, none for a skip or a failure. *)
Definition sleeps_due (l : Line) : list Duration :=
  match l with
  | LSuccess _ => [Fixed 15; Uniform 2.2 4.313]
  | _ => []
  end.

Definition is_failed (l : Line) : bool :=
  match l with
  | LFailed _ => true
  | _ => false
  end.

(** The session files [load_session] was called with, in order. *)
Definition loads (tr : Trace) : list string :=
  flat_map (fun e => match e with ELoadSession f _ => [f] | _ => [] end) tr.

(** The openings of the browser, by their [headless] flag. *)
Definition openings (tr : Trace) : list bool :=
  flat_map (fun e => match e with EBrowserOpen b _ => [b] | _ => [] end) tr.

(** The first line a pass prints for a candidate: the skip line when the
    guard of line 70 holds, the processing line of line 77 otherwise. *)
Definition row_line_of (ir : nat * Row) : Line :=
  if no_linkedin_url (LinkedIn (snd ir)) then LSkipping (Nama_Mahasiswa (snd ir))
  else LProcessing (fst ir) (Nama_Mahasiswa (snd ir)).

(** The skip and processing lines of a trace, in order. *)
Definition row_lines (tr : Trace) : list Line :=
  flat_map (fun e => match e with
                     | EPrint (LSkipping nm) => [LSkipping nm]
                     | EPrint (LProcessing i nm) => [LProcessing i nm]
                     | _ => []
                     end) tr.

(** Whether a string starts, or ends, with white space. *)
Definition starts_with_space (s : string) : bool :=
  match s with
  | EmptyString => false
  | String c _ => PyStr.isspace c
  end.

Fixpoint ends_with_space (s : string) : bool :=
  match s with
  | EmptyString => false
  | String c EmptyString => PyStr.isspace c
  | String _ s' => ends_with_space s'
  end.

(** The eight spellings of "yes" by letter case. *)
Definition yes_spellings : list string :=
  ["yes"; "yeS"; "yEs"; "yES"; "Yes"; "YeS"; "YEs"; "YES"]%string.

(** The lines [main] prints outside the loop. *)
Definition is_frame_line (l : Line) : bool :=
  match l with
  | LNotFound _ | LReading _ | LFound _ | LReadError _ | LNoCandidates
  | LSessionLoaded | LSessionWarning _ | LDone => true
  | _ => false
  end.

(** Walks a trace for the order of session and scrapes: [None] when the
    session is loaded twice or a scrape comes before the session was tried;
    otherwise whether it has been tried at the end. *)
Fixpoint session_after (tried : bool) (tr : Trace) : option bool :=
  match tr with
  | [] => Some tried
  | ELoadSession _ _ :: tr' => if tried then None else session_after true tr'
  | EScrape _ :: tr' => if tried then session_after tried tr' else None
  | _ :: tr' => session_after tried tr'
  end.

Module Edge.

(** The only retained row has no LinkedIn value. *)
Definition carol_only : World :=
  mkWorld "/repo" true (inr (mkDF true [Scenario.bob; Scenario.carol]))
          (fun _ => None) (fun _ _ => inr Scenario.profile)
          (fun _ => "about:blank"%string) (fun _ _ => None).

(** No row of the sheet says yes. *)
Definition nobody : World :=
  mkWorld "/repo" true (inr (mkDF true [Scenario.bob]))
          (fun _ => None) (fun _ _ => inr Scenario.profile)
          (fun _ => "about:blank"%string) (fun _ _ => None).

End Edge.

(** Whether pacing is owed at the end of a trace, by the scan of [paced]. *)
Fixpoint owed_after (owed : bool) (tr : Trace) : bool :=
  match tr with
  | [] => owed
  | EScrape _ :: tr' => owed_after true tr'
  | ESleep (Uniform lo hi) :: tr' =>
      owed_after (owed && negb (Qeq_bool lo 2.2 && Qeq_bool hi 4.313)) tr'
  | _ :: tr' => owed_after owed tr'
  end.

(** ** The scrapes of a run, row by row *)

(** The scraper calls of a trace, each under the label of the row whose
    processing line (line 77) was printed last before it; [cur] is that
    label at the start of the trace. *)
Fixpoint attempts_from (cur : option nat) (tr : Trace) : list (nat * string) :=
  match tr with
  | [] => []
  | EPrint (LProcessing i _) :: tr' => attempts_from (Some i) tr'
  | EScrape u :: tr' =>
      match cur with
      | Some i => (i, u) :: attempts_from cur tr'
      | None => attempts_from cur tr'
      end
  | _ :: tr' => attempts_from cur tr'
  end.

(** The label announced last at the end of a trace. *)
Fixpoint label_after (cur : option nat) (tr : Trace) : option nat :=
  match tr with
  | [] => cur
  | EPrint (LProcessing i _) :: tr' => label_after (Some i) tr'
  | _ :: tr' => label_after cur tr'
  end.

(** [(i, u)] is in [attempts tr] when [scraper.scrape(u)] was called in
    [tr] while the row labelled [i] was being processed. *)
Definition attempts (tr : Trace) : list (nat * string) := attempts_from None tr.

(** What the pass over a candidate adds to the attempts, by the guard of
    line 70 alone. *)
Definition attempt_of_pass (ir : nat * Row) : list (nat * string) :=
  if no_linkedin_url (LinkedIn (snd ir)) then []
  else [(fst ir, clean_url (LinkedIn (snd ir)))].

Module Padded.

(** A sheet whose second row says " Yes", with a blank before the word. *)
Definition sheet : DataFrame :=
  mkDF true [Scenario.bob; padded_yes; Scenario.dave].

(** Everything works. *)
Definition world : World :=
  mkWorld "/repo" true (inr sheet) (fun _ => None)
          (fun _ _ => inr Scenario.profile)
          (fun _ => "https://x/current"%string) (fun _ _ => None).

End Padded.

(** * Properties *)

(** ** Equations of the program *)

Lemma print_each_run {A} (line : A -> Line) (l : list A) (h : Trace) :
  print_each line l h = (map (fun x => EPrint (line x)) l, Returned tt).
Proof.
  revert h. induction l as [|a l IH]; intros h.
  - reflexivity.
  - unfold print_each in *. cbn [for_each map].
    unfold bind at 1. unfold print at 1, emit.
    rewrite IH. reflexivity.
Qed.

Lemma show_person_run (p : Person) (h : Trace) :
  show_person p h = (map EPrint (report p), Returned tt).
Proof.
  unfold show_person, report, bind, print, emit.
  rewrite !print_each_run.
  rewrite !map_app, !map_map. cbn [map app].
  reflexivity.
Qed.

Section PassEquations.

Variable w : World.

Lemma loop_body_run (h : Trace) (index : nat) (row : Row) :
  loop_body w (index, row) h =
  if no_linkedin_url (LinkedIn row) then
    ([EPrint (LSkipping (Nama_Mahasiswa row))], Returned tt)
  else
    match scrape w (h ++ announce index row) (clean_url (LinkedIn row)) with
    | inr p => (success_events w h index row p, Returned tt)
    | inl e =>
        let lines := failure_lines w h index row e in
        let shot := EScreenshot (error_png index) in
        match screenshot w (h ++ lines) (error_png index) with
        | None => (lines ++ [shot; EPrint (LScreenshotSaved index)], Returned tt)
        | Some e' => (lines ++ [shot], Raised e')
        end
    end.
Proof.
  unfold loop_body.
  destruct (no_linkedin_url (LinkedIn row)); [reflexivity|].
  unfold try_except, try_suite, except_suite, bind, print, sleep, emit,
    do_scrape, current_url, do_screenshot.
  unfold success_events, failure_lines, announce.
  cbn [app]. rewrite <- !app_assoc. cbn [app].
  destruct (scrape w _ _) as [e|p].
  - cbn [app]. rewrite <- ?app_assoc. cbn [app].
    destruct (screenshot w _ _); reflexivity.
  - rewrite show_person_run. cbn [app]. rewrite <- ?app_assoc. reflexivity.
Qed.

End PassEquations.

(** ** Observers on the events of a pass *)

Lemma scrapes_app (a b : Trace) : scrapes (a ++ b) = scrapes a ++ scrapes b.
Proof. apply flat_map_app. Qed.

Lemma outcomes_app (a b : Trace) : outcomes (a ++ b) = outcomes a ++ outcomes b.
Proof. apply flat_map_app. Qed.

Lemma sleeps_app (a b : Trace) : sleeps (a ++ b) = sleeps a ++ sleeps b.
Proof. apply flat_map_app. Qed.

Lemma screenshots_app (a b : Trace) :
  screenshots (a ++ b) = screenshots a ++ screenshots b.
Proof. apply flat_map_app. Qed.

Lemma scrapes_prints (ls : list Line) : scrapes (map EPrint ls) = [].
Proof. induction ls; [reflexivity | assumption]. Qed.

Lemma sleeps_prints (ls : list Line) : sleeps (map EPrint ls) = [].
Proof. induction ls; [reflexivity | assumption]. Qed.

Lemma report_no_outcome (p : Person) : outcomes (map EPrint (report p)) = [].
Proof.
  unfold report.
  destruct (experiences p) as [|x1 [|x2 xs]];
    destruct (educations p) as [|y1 [|y2 ys]]; reflexivity.
Qed.

Create Rewrite HintDb observe.
#[local] Hint Rewrite scrapes_app outcomes_app sleeps_app screenshots_app
  scrapes_prints sleeps_prints report_no_outcome : observe.

Ltac observe :=
  unfold success_events, failure_lines, announce;
  autorewrite with observe; cbn.

Section PassFacts.

Variable w : World.
Variables (h : Trace) (index : nat) (row : Row).

(** A pass calls the scraper at most once, with the cleaned URL, and only
    when the guard of line 70 lets the row through. *)
Lemma scrapes_loop_body :
  scrapes (fst (loop_body w (index, row) h)) =
  if no_linkedin_url (LinkedIn row) then [] else [clean_url (LinkedIn row)].
Proof.
  rewrite loop_body_run.
  destruct (no_linkedin_url (LinkedIn row)); [reflexivity|].
  destruct (scrape w _ _) as [e|p]; cbn zeta.
  - destruct (screenshot w _ _); cbn [fst]; observe; reflexivity.
  - cbn [fst]. observe. reflexivity.
Qed.

(** A pass prints exactly one outcome line. *)
Lemma outcomes_loop_body :
  exists l, outcomes (fst (loop_body w (index, row) h)) = [l].
Proof.
  rewrite loop_body_run.
  destruct (no_linkedin_url (LinkedIn row)); [eexists; reflexivity|].
  destruct (scrape w _ _) as [e|p]; cbn zeta.
  - destruct (screenshot w _ _); cbn [fst]; observe; eexists; reflexivity.
  - cbn [fst]. observe. eexists; reflexivity.
Qed.

End PassFacts.

(** ** Which rows are attempted *)

(** On the pass alone: the mask and the guard of line 70 decide whether a
    pass over a row calls the scraper. *)
Lemma pass_attempted_iff (w : World) (h : Trace) (index : nat) (row : Row) :
  attempted w h (index, row) = true <->
  PyStr.lower (py_str (fillna_empty (Conclusion row))) = "yes"%string
  /\ truthy (LinkedIn row) = true
  /\ isna (LinkedIn row) = false.
Proof.
  unfold attempted. cbn [snd]. rewrite scrapes_loop_body.
  unfold conclusion_is_yes, no_linkedin_url.
  rewrite andb_true_iff, String.eqb_eq.
  destruct (truthy (LinkedIn row)), (isna (LinkedIn row)); cbn;
    intuition congruence.
Qed.

(** ** Equations of the loop, the browser scope and [main] *)

Lemma for_each_cons {A} (body : A -> Task unit) (a : A) (l : list A) (h : Trace) :
  for_each body (a :: l) h =
  match body a h with
  | (ev, Returned _) =>
      let (ev', r) := for_each body l (h ++ ev) in (ev ++ ev', r)
  | (ev, Raised e) => (ev, Raised e)
  end.
Proof. reflexivity. Qed.

Lemma for_each_app {A} (body : A -> Task unit) (l1 l2 : list A) (h : Trace) :
  for_each body (l1 ++ l2) h =
  match for_each body l1 h with
  | (ev, Returned _) =>
      let (ev', r) := for_each body l2 (h ++ ev) in (ev ++ ev', r)
  | (ev, Raised e) => (ev, Raised e)
  end.
Proof.
  revert h. induction l1 as [|a l1 IH]; intros h.
  - cbn. rewrite app_nil_r. destruct (for_each body l2 h). reflexivity.
  - cbn [app]. rewrite !for_each_cons.
    destruct (body a h) as [ev [[]|e]]; [|reflexivity].
    rewrite IH.
    destruct (for_each body l1 (h ++ ev)) as [ev1 [[]|e1]]; [|reflexivity].
    rewrite <- app_assoc.
    destruct (for_each body l2 (h ++ ev ++ ev1)) as [ev2 r2].
    rewrite app_assoc. reflexivity.
Qed.

Section RunEquations.

Variable w : World.

Lemma restore_session_run (h : Trace) :
  restore_session w h =
  match load_session w h with
  | None => ([ELoadSession session_file true; EPrint LSessionLoaded], Returned tt)
  | Some e =>
      ([ELoadSession session_file false; EPrint (LSessionWarning e)], Returned tt)
  end.
Proof.
  unfold restore_session, try_except, bind, do_load_session, print, emit.
  destruct (load_session w h); reflexivity.
Qed.

Lemma batch_run (candidates : list (nat * Row)) (h : Trace) :
  batch w candidates h =
  let ev0 := fst (restore_session w h) in
  let (ev, r) := for_each (loop_body w) candidates (h ++ ev0) in
  (ev0 ++ ev, r).
Proof.
  unfold batch, bind. rewrite restore_session_run.
  destruct (load_session w h); reflexivity.
Qed.

Lemma main_run :
  run w =
  if path_exists w then
    match read_candidates w with
    | inl e =>
        ([EPrint (LReading (excel_path w)); EPrint (LReadError e)], Returned tt)
    | inr [] => (preamble w 0 ++ [EPrint LNoCandidates], Returned tt)
    | inr candidates =>
        let pre := preamble w (length candidates) ++ opened in
        let (ev, r) := batch w candidates pre in
        (pre ++ ev ++ EBrowserClose
             :: match r with
                | Returned _ => [EPrint LDone]
                | Raised _ => []
                end, r)
    end
  else ([EPrint (LNotFound (excel_path w))], Returned tt).
Proof.
  unfold run, main.
  destruct (path_exists w); [|reflexivity].
  cbn [negb]. unfold bind at 1. unfold print at 1, emit.
  destruct (read_candidates w) as [e|[|c cs]]; [reflexivity|reflexivity|].
  cbn zeta. unfold preamble, opened.
  unfold bind at 1. unfold print at 1, emit.
  unfold bind at 1. unfold async_with_BrowserManager.
  cbn [app].
  destruct (batch w (c :: cs) _) as [ev [[]|e]]; cbn [app].
  - unfold print, emit. rewrite <- app_assoc. reflexivity.
  - reflexivity.
Qed.

End RunEquations.

(** ** An unreadable source *)

Lemma read_excel_failure (w : World) (e : Exn) :
  read_excel w = inl e -> read_candidates w = inl e.
Proof. unfold read_candidates. intros ->. reflexivity. Qed.

(** C5: when the workbook is missing, when [pd.read_excel] raises, or when
    the sheet it returns has no "Conclusion" column, the run ends normally
    right after the error report: the report is the last event, no browser
    was opened or used, nothing was scraped and there is no outcome line. *)
Theorem unreadable_source_aborts (w : World) :
  path_exists w = false
  \/ (exists e, read_excel w = inl e)
  \/ (exists df, read_excel w = inr df /\ has_Conclusion df = false) ->
  snd (run w) = Returned tt
  /\ (exists l, is_source_error l = true
                /\ last (fst (run w)) EBrowserClose = EPrint l)
  /\ length (fst (run w)) <= 2
  /\ filter touches_browser (fst (run w)) = []
  /\ scrapes (fst (run w)) = []
  /\ outcomes (fst (run w)) = [].
Proof.
  intros H. rewrite main_run.
  destruct (path_exists w) eqn:Ex.
  - assert (Hr : exists e, read_candidates w = inl e).
    { destruct H as [H|[[e H]|(df & H & Hc)]]; [discriminate| |].
      - exists e. apply read_excel_failure, H.
      - exists (mkExn "KeyError" "'Conclusion'").
        unfold read_candidates. rewrite H, Hc. reflexivity. }
    destruct Hr as [e Hr]. rewrite Hr. cbn.
    repeat split; try reflexivity; try lia.
    exists (LReadError e). split; reflexivity.
  - cbn. repeat split; try reflexivity; try lia.
    exists (LNotFound (excel_path w)). split; reflexivity.
Qed.

Example missing_console :
  console (fst (run Unreadable.missing)) =
  ["Error: Could not find /repo/Alumni Shared.xlsx"%string].
Proof. reflexivity. Qed.

Example no_sheet_console :
  console (fst (run Unreadable.no_sheet)) =
  ["Reading data from: /repo/Alumni Shared.xlsx";
   "Error reading Excel file: Worksheet named '2013' not found"]%string.
Proof. reflexivity. Qed.

Example no_column_console :
  console (fst (run Unreadable.no_column)) =
  ["Reading data from: /repo/Alumni Shared.xlsx";
   "Error reading Excel file: 'Conclusion'"]%string.
Proof. reflexivity. Qed.

Lemma unreadable_source_aborts_witness :
  (snd (run Unreadable.missing) = Returned tt
   /\ outcomes (fst (run Unreadable.missing)) = [])
  /\ (snd (run Unreadable.no_sheet) = Returned tt
      /\ outcomes (fst (run Unreadable.no_sheet)) = [])
  /\ (snd (run Unreadable.no_column) = Returned tt
      /\ outcomes (fst (run Unreadable.no_column)) = []).
Proof.
  split; [|split].
  - destruct (unreadable_source_aborts Unreadable.missing)
      as (R & _ & _ & _ & _ & O).
    + left. reflexivity.
    + split; assumption.
  - destruct (unreadable_source_aborts Unreadable.no_sheet)
      as (R & _ & _ & _ & _ & O).
    + right. left.
      exists (mkExn "ValueError" "Worksheet named '2013' not found").
      reflexivity.
    + split; assumption.
  - destruct (unreadable_source_aborts Unreadable.no_column)
      as (R & _ & _ & _ & _ & O).
    + right. right. exists (mkDF false [Scenario.alice]).
      split; reflexivity.
    + split; assumption.
Defined.

(** ** The browser scope *)

Lemma browser_after_app (open : bool) (a b : Trace) :
  browser_after open (a ++ b) =
  match browser_after open a with
  | Some open' => browser_after open' b
  | None => None
  end.
Proof.
  revert open. induction a as [|e a IH]; intros open; [reflexivity|].
  cbn [app browser_after].
  destruct e; cbn; destruct open; cbn; auto.
Qed.

Lemma browser_after_prints (open : bool) (ls : list Line) :
  browser_after open (map EPrint ls) = Some open.
Proof. induction ls; [reflexivity | assumption]. Qed.

(** A pass of the loop neither opens nor closes the browser. *)
Lemma loop_body_in_scope (w : World) (h : Trace) (ir : nat * Row) :
  browser_after true (fst (loop_body w ir h)) = Some true.
Proof.
  destruct ir as [index row]. rewrite loop_body_run.
  destruct (no_linkedin_url (LinkedIn row)); [reflexivity|].
  destruct (scrape w _ _) as [e|p]; cbn zeta.
  - destruct (screenshot w _ _); reflexivity.
  - cbn [fst]. unfold success_events, announce. cbn [app].
    cbn [browser_after uses_browser andb negb].
    rewrite browser_after_app, browser_after_prints. reflexivity.
Qed.

Lemma for_each_in_scope (w : World) (candidates : list (nat * Row)) (h : Trace) :
  browser_after true (fst (for_each (loop_body w) candidates h)) = Some true.
Proof.
  revert h. induction candidates as [|c cs IH]; intros h; [reflexivity|].
  rewrite for_each_cons.
  pose proof (loop_body_in_scope w h c) as Hc.
  destruct (loop_body w c h) as [ev [[]|e]]; cbn [fst] in *; [|assumption].
  specialize (IH (h ++ ev)).
  destruct (for_each (loop_body w) cs (h ++ ev)) as [ev' r]; cbn [fst] in *.
  rewrite browser_after_app, Hc. assumption.
Qed.

Lemma batch_in_scope (w : World) (candidates : list (nat * Row)) (h : Trace) :
  browser_after true (fst (batch w candidates h)) = Some true.
Proof.
  rewrite batch_run. cbn zeta.
  pose proof (for_each_in_scope w candidates (h ++ fst (restore_session w h))) as H.
  destruct (for_each _ _ _) as [ev r]; cbn [fst] in *.
  rewrite browser_after_app, restore_session_run.
  destruct (load_session w h); cbn; assumption.
Qed.

(** C6: in every world and however the run ends, returning or raising,
    the browser is shut when [main] is left: all use of it lies between one
    opening and the closing that follows, and nothing is left open. *)
Theorem browser_always_released (w : World) :
  browser_after false (fst (run w)) = Some false.
Proof.
  rewrite main_run.
  destruct (path_exists w); [|reflexivity].
  destruct (read_candidates w) as [e|[|c cs]]; [reflexivity|reflexivity|].
  cbn zeta.
  pose proof (batch_in_scope w (c :: cs)
                (preamble w (length (c :: cs)) ++ opened)) as H.
  destruct (batch w (c :: cs) _) as [ev r]; cbn [fst] in *.
  unfold preamble, opened. cbn [app browser_after uses_browser andb].
  rewrite browser_after_app, H.
  destruct r; reflexivity.
Qed.

(** ** Restoring the session *)

(** Restoring the session never raises, whatever the world answers. *)
Lemma restore_session_returns (w : World) (h : Trace) :
  snd (restore_session w h) = Returned tt.
Proof.
  rewrite restore_session_run. destruct (load_session w h); reflexivity.
Qed.

(** C7: when [load_session] raises [e] the failure stays inside
    [restore_session], which logs the warning and returns; the loop then runs
    over all the candidates on the browser whose session was not restored,
    and the run as a whole ends as the loop ends, closing the browser. *)
Theorem session_failure_not_fatal (w : World) (e : Exn)
    (c : nat * Row) (cs : list (nat * Row)) :
  path_exists w = true ->
  read_candidates w = inr (c :: cs) ->
  load_session w (preamble w (length (c :: cs)) ++ opened) = Some e ->
  let pre := preamble w (length (c :: cs)) ++ opened in
  let warned := [ELoadSession session_file false; EPrint (LSessionWarning e)] in
  restore_session w pre = (warned, Returned tt)
  /\ run w =
     let (ev, r) := for_each (loop_body w) (c :: cs) (pre ++ warned) in
     (pre ++ warned ++ ev ++ EBrowserClose
          :: match r with
             | Returned _ => [EPrint LDone]
             | Raised _ => []
             end, r).
Proof.
  intros Ex Rd Ld pre warned.
  assert (Rs : restore_session w pre = (warned, Returned tt)).
  { rewrite restore_session_run. subst pre. rewrite Ld. reflexivity. }
  split; [exact Rs|].
  rewrite main_run, Ex, Rd. cbn zeta. fold pre.
  rewrite batch_run. cbn zeta. rewrite Rs. cbn [fst].
  destruct (for_each (loop_body w) (c :: cs) (pre ++ warned)) as [ev r].
  rewrite <- app_assoc. reflexivity.
Qed.


Example no_session_outcomes :
  outcomes (fst (run NoSession.world)) =
  [LSuccess "https://x/authwall"; LSkipping (CStr "Carol");
   LSuccess "https://x/authwall"]
  /\ snd (run NoSession.world) = Returned tt.
Proof. split; reflexivity. Qed.

Lemma session_failure_not_fatal_witness :
  restore_session NoSession.world (preamble NoSession.world 3 ++ opened) =
  ([ELoadSession session_file false;
    EPrint (LSessionWarning NoSession.no_file)], Returned tt)
  /\ snd (run NoSession.world) = Returned tt.
Proof.
  destruct (session_failure_not_fatal NoSession.world NoSession.no_file
              (0, Scenario.alice) [(2, Scenario.carol); (3, Scenario.dave)])
    as [Rs Rn]; [reflexivity | reflexivity | reflexivity |].
  split; [exact Rs|].
  rewrite Rn. reflexivity.
Defined.

(** ** The pass that succeeds *)

Lemma take_length (n : nat) (s : string) :
  String.length (PyStr.take n s) = Nat.min n (String.length s).
Proof.
  unfold PyStr.take. revert n.
  induction s as [|c s IH]; intros [|n]; cbn; try reflexivity.
  rewrite IH. reflexivity.
Qed.

Lemma take_prefix (n : nat) (s : string) :
  String.prefix (PyStr.take n s) s = true.
Proof.
  unfold PyStr.take. revert n.
  induction s as [|c s IH]; intros [|n]; cbn; try reflexivity.
  rewrite IH. destruct (ascii_dec c c); [reflexivity | contradiction].
Qed.

(** The about line shows a prefix of the about-text of at most 100
    characters, and all of it when it is no longer than that. *)
Lemma about_text_truncated (p : Person) (s : string) :
  about p = Some s -> s <> ""%string ->
  about_text p = PyStr.take 100 s
  /\ String.length (about_text p) = Nat.min 100 (String.length s)
  /\ String.prefix (about_text p) s = true.
Proof.
  intros E Hs. unfold about_text. rewrite E.
  destruct (String.eqb_spec s ""); [contradiction|].
  split; [reflexivity|]. split; [apply take_length | apply take_prefix].
Qed.

(** C8: when the scrape of a row returns a profile [p], the pass waits 15
    seconds right after the scrape and before the success line, then prints
    the success line and the summary, which holds the name, the location,
    the about-text cut to its first 100 characters ("N/A" when there is
    none), the number of experiences and the first two of them, the number
    of educations and the first two of them, and returns. *)
Theorem success_pass (w : World) (h : Trace) (index : nat) (row : Row)
    (p : Person) :
  no_linkedin_url (LinkedIn row) = false ->
  scrape w (h ++ announce index row) (clean_url (LinkedIn row)) = inr p ->
  exists u : string,
    loop_body w (index, row) h =
    (announce index row
     ++ [EScrape (clean_url (LinkedIn row)); ESleep (Fixed 15);
         EPrint (LSuccess u)]
     ++ map EPrint
          ([LRule;
            LPerson (name p);
            LLocation (location p);
            LAbout match about p with
                   | Some s =>
                       if (s =? "")%string then "N/A"%string
                       else String.substring 0 100 s
                   | None => "N/A"%string
                   end;
            LWorkCount (length (experiences p))]
           ++ map (fun x => LWorkEntry (position_title x) (exp_institution_name x))
                  (firstn 2 (experiences p))
           ++ [LEduCount (length (educations p))]
           ++ map (fun x => LEduEntry (edu_institution_name x))
                  (firstn 2 (educations p))
           ++ [LRule])
     ++ [ESleep (Uniform 2.2 4.313)],
     Returned tt).
Proof.
  intros Hurl Hp.
  rewrite loop_body_run, Hurl, Hp.
  unfold success_events. eexists.
  rewrite <- !app_assoc. reflexivity.
Qed.

Lemma success_pass_witness :
  exists u : string,
    outcomes (fst (loop_body Scenario.fine (0, Scenario.alice) [])) = [LSuccess u]
    /\ sleeps (fst (loop_body Scenario.fine (0, Scenario.alice) [])) =
       [Fixed 15; Uniform 2.2 4.313].
Proof.
  destruct (success_pass Scenario.fine [] 0 Scenario.alice Scenario.profile)
    as [u E]; [reflexivity | reflexivity |].
  exists u. rewrite E. split; reflexivity.
Defined.

(** ** A LinkedIn cell of blanks *)





Example blank_pass :
  fst (loop_body Scenario.timing_out (7, Blank.row) []) =
  [EPrint (LProcessing 7 (CStr "Frank")); EPrint (LScraping "");
   EScrape "";
   EPrint (LFailed (CStr "Frank")); EPrint (LErrorType "TimeoutError");
   EPrint (LErrorMsg "Timeout 30000ms exceeded");
   EPrint (LBrowserUrl "https://x/login");
   EScreenshot "error_7.png"; EPrint (LScreenshotSaved 7)].
Proof. reflexivity. Qed.


(** ** The pass that fails *)

Section FailingPass.

Variable w : World.
Variables (h : Trace) (index : nat) (row : Row) (e : Exn).

Hypothesis usable : no_linkedin_url (LinkedIn row) = false.
Hypothesis scrape_raises :
  scrape w (h ++ announce index row) (clean_url (LinkedIn row)) = inl e.

(** When the screenshot is taken the handler returns: what the scraper
    raised does not leave the pass. *)
Lemma failure_absorbed :
  screenshot w (h ++ failure_lines w h index row e) (error_png index) = None ->
  loop_body w (index, row) h =
  (failure_lines w h index row e
   ++ [EScreenshot (error_png index); EPrint (LScreenshotSaved index)],
   Returned tt).
Proof.
  intros Hs. rewrite loop_body_run, usable, scrape_raises. cbn zeta.
  rewrite Hs. reflexivity.
Qed.

(** When the screenshot raises, the handler is left by that raise. *)
Lemma failure_escapes (e' : Exn) :
  screenshot w (h ++ failure_lines w h index row e) (error_png index) = Some e' ->
  loop_body w (index, row) h =
  (failure_lines w h index row e ++ [EScreenshot (error_png index)], Raised e').
Proof.
  intros Hs. rewrite loop_body_run, usable, scrape_raises. cbn zeta.
  rewrite Hs. reflexivity.
Qed.

(** A failed pass never sleeps: neither the settle delay nor the pacing
    delay is on this path. *)
Lemma failure_never_sleeps : sleeps (fst (loop_body w (index, row) h)) = [].
Proof.
  rewrite loop_body_run, usable, scrape_raises. cbn zeta.
  destruct (screenshot w _ _); cbn [fst]; observe; reflexivity.
Qed.

(** A failed pass asks for the screenshot named after the row's index. *)
Lemma failure_screenshot :
  screenshots (fst (loop_body w (index, row) h)) = [error_png index].
Proof.
  rewrite loop_body_run, usable, scrape_raises. cbn zeta.
  destruct (screenshot w _ _); cbn [fst]; observe; reflexivity.
Qed.

End FailingPass.

(** C10: the screenshot of the failure handler is not guarded.  Let the
    passes over the candidates before some row have returned, the scrape of
    that row raise [e] and its screenshot raise [e'].  Then the run stops
    right after the screenshot request: [e'] leaves the loop and [main], no
    event of any later candidate is logged, the closing line of the batch is
    not printed, and the browser is closed on the way out. *)
Theorem screenshot_failure_ends_batch (w : World)
    (before rest : list (nat * Row)) (index : nat) (row : Row)
    (ev_before : Trace) (e e' : Exn) :
  let candidates := before ++ (index, row) :: rest in
  let pre := preamble w (length candidates) ++ opened in
  let h := pre ++ ev_before in
  path_exists w = true ->
  read_candidates w = inr candidates ->
  batch w before pre = (ev_before, Returned tt) ->
  no_linkedin_url (LinkedIn row) = false ->
  scrape w (h ++ announce index row) (clean_url (LinkedIn row)) = inl e ->
  screenshot w (h ++ failure_lines w h index row e) (error_png index) = Some e' ->
  for_each (loop_body w) ((index, row) :: rest) h =
    (failure_lines w h index row e ++ [EScreenshot (error_png index)], Raised e')
  /\ run w =
     (h ++ failure_lines w h index row e
        ++ [EScreenshot (error_png index); EBrowserClose],
      Raised e').
Proof.
  intros candidates pre h Ex Rd Hb Hu Hsc Hsh.
  assert (P : loop_body w (index, row) h =
              (failure_lines w h index row e ++ [EScreenshot (error_png index)],
               Raised e'))
    by (apply failure_escapes; assumption).
  assert (F : for_each (loop_body w) ((index, row) :: rest) h =
              (failure_lines w h index row e ++ [EScreenshot (error_png index)],
               Raised e'))
    by (rewrite for_each_cons, P; reflexivity).
  split; [exact F|].
  rewrite main_run, Ex, Rd.
  assert (B : batch w candidates pre =
              (ev_before ++ failure_lines w h index row e
                 ++ [EScreenshot (error_png index)], Raised e')).
  { rewrite batch_run in Hb |- *. cbn zeta in *.
    subst candidates. rewrite for_each_app.
    destruct (for_each (loop_body w) before (pre ++ fst (restore_session w pre)))
      as [ev1 r1].
    injection Hb as E1 E2. subst r1.
    rewrite <- app_assoc, E1. fold h. rewrite F.
    rewrite app_assoc, E1. reflexivity. }
  destruct candidates as [|c cs] eqn:Ec.
  { subst candidates. destruct before; discriminate Ec. }
  cbn zeta. fold pre. rewrite B.
  subst h. rewrite <- !app_assoc. reflexivity.
Qed.

Lemma screenshot_failure_ends_batch_witness :
  run Scenario.page_gone =
  (preamble Scenario.page_gone 3 ++ opened
   ++ [ELoadSession session_file true; EPrint LSessionLoaded]
   ++ announce 0 Scenario.alice
   ++ [EScrape "https://x/a";
       EPrint (LFailed (CStr "Alice"));
       EPrint (LErrorType "TimeoutError");
       EPrint (LErrorMsg "Timeout 30000ms exceeded");
       EPrint (LBrowserUrl "about:blank");
       EScreenshot "error_0.png";
       EBrowserClose],
   Raised Scenario.closed).
Proof.
  destruct (screenshot_failure_ends_batch Scenario.page_gone
              [] [(2, Scenario.carol); (3, Scenario.dave)] 0 Scenario.alice
              [ELoadSession session_file true; EPrint LSessionLoaded]
              Scenario.timeout Scenario.closed) as [_ R];
    [reflexivity | reflexivity | reflexivity | reflexivity | reflexivity
    | reflexivity | exact R].
Defined.

(** ** Counting outcomes *)

Lemma outcomes_length_pass (w : World) (h : Trace) (ir : nat * Row) :
  length (outcomes (fst (loop_body w ir h))) = 1.
Proof.
  destruct ir as [index row].
  destruct (outcomes_loop_body w h index row) as [l E].
  rewrite E. reflexivity.
Qed.

(** The loop prints one outcome per candidate it reaches: never more than
    there are candidates, and as many as there are when it returns. *)
Lemma outcomes_for_each (w : World) (candidates : list (nat * Row)) (h : Trace) :
  length (outcomes (fst (for_each (loop_body w) candidates h))) <= length candidates
  /\ (snd (for_each (loop_body w) candidates h) = Returned tt ->
      length (outcomes (fst (for_each (loop_body w) candidates h)))
      = length candidates).
Proof.
  revert h. induction candidates as [|c cs IH]; intros h.
  - cbn. split; [lia | reflexivity].
  - rewrite for_each_cons.
    pose proof (outcomes_length_pass w h c) as Hc.
    destruct (loop_body w c h) as [ev [[]|e]]; cbn [fst snd] in *.
    + destruct (IH (h ++ ev)) as [Hle Heq].
      destruct (for_each (loop_body w) cs (h ++ ev)) as [ev' r];
        cbn [fst snd length] in *.
      rewrite outcomes_app, length_app, Hc.
      split; [lia|]. intros Hr. rewrite (Heq Hr). reflexivity.
    + cbn [length]. split; [lia | discriminate].
Qed.

(** When no screenshot raises, every pass returns and so does the loop. *)
Lemma for_each_returns (w : World) (candidates : list (nat * Row)) (h : Trace) :
  (forall h' f, screenshot w h' f = None) ->
  snd (for_each (loop_body w) candidates h) = Returned tt.
Proof.
  intros Hs. revert h. induction candidates as [|[index row] cs IH]; intros h.
  - reflexivity.
  - rewrite for_each_cons, loop_body_run.
    destruct (no_linkedin_url (LinkedIn row)).
    + specialize (IH (h ++ [EPrint (LSkipping (Nama_Mahasiswa row))])).
      destruct (for_each _ _ _). exact IH.
    + destruct (scrape w _ _) as [e|p]; cbn zeta.
      * rewrite Hs.
        match goal with |- context [for_each _ cs ?h'] => specialize (IH h') end.
        destruct (for_each _ _ _). exact IH.
      * match goal with |- context [for_each _ cs ?h'] => specialize (IH h') end.
        destruct (for_each _ _ _). exact IH.
Qed.

(** With screenshots that never raise, a run over a readable sheet returns
    and reports as many outcomes as the filter retained rows. *)
Lemma run_outcomes_complete (w : World) (candidates : list (nat * Row)) :
  path_exists w = true ->
  read_candidates w = inr candidates ->
  (forall h f, screenshot w h f = None) ->
  snd (run w) = Returned tt
  /\ length (outcomes (fst (run w))) = length candidates.
Proof.
  intros Ex Rd Hs. rewrite main_run, Ex, Rd.
  destruct candidates as [|c cs]; [split; reflexivity|].
  cbn zeta. rewrite batch_run. cbn zeta.
  set (h0 := (preamble w (length (c :: cs)) ++ opened)
             ++ fst (restore_session w (preamble w (length (c :: cs)) ++ opened))).
  pose proof (for_each_returns w (c :: cs) h0 Hs) as R.
  destruct (outcomes_for_each w (c :: cs) h0) as [_ Heq].
  specialize (Heq R).
  destruct (for_each (loop_body w) (c :: cs) h0) as [ev r]; cbn [fst snd] in *.
  subst r. split; [reflexivity|].
  rewrite !outcomes_app, !length_app, Heq, restore_session_run.
  destruct (load_session w _); cbn -[length]; cbn [length outcomes flat_map app];
    lia.
Qed.

(** ** Pacing *)

(** The sleeps of a pass: both delays after a scrape that returned, none
    otherwise. *)
Lemma sleeps_loop_body (w : World) (h : Trace) (index : nat) (row : Row) :
  sleeps (fst (loop_body w (index, row) h)) =
  if no_linkedin_url (LinkedIn row) then []
  else match scrape w (h ++ announce index row) (clean_url (LinkedIn row)) with
       | inr _ => [Fixed 15; Uniform 2.2 4.313]
       | inl _ => []
       end.
Proof.
  rewrite loop_body_run.
  destruct (no_linkedin_url (LinkedIn row)); [reflexivity|].
  destruct (scrape w _ _) as [e|p]; cbn zeta.
  - destruct (screenshot w _ _); cbn [fst]; observe; reflexivity.
  - cbn [fst]. observe. reflexivity.
Qed.

(** C2 at a scrape that fails: in the world where every scrape times out
    and screenshots work, Alice and Dave are scraped one after the other and
    the run never sleeps, so no pacing delay separates the two requests;
    where the scrapes succeed the same sheet is paced. *)
Theorem failed_scrape_not_paced :
  snd (run Scenario.timing_out) = Returned tt
  /\ scrapes (fst (run Scenario.timing_out)) = ["https://x/a"; "https://x/d"]%string
  /\ sleeps (fst (run Scenario.timing_out)) = []
  /\ paced false (fst (run Scenario.timing_out)) = false
  /\ paced false (fst (run Scenario.fine)) = true.
Proof. repeat split; reflexivity. Qed.

(** C3 where a screenshot fails: the filter retains three rows of the sheet
    (Alice, Carol, Dave), the run in the world whose page cannot take a
    screenshot reports one outcome only, Alice's failure; Carol and Dave get
    none. *)
Theorem outcomes_lost_after_screenshot_failure :
  read_candidates Scenario.page_gone
  = inr [(0, Scenario.alice); (2, Scenario.carol); (3, Scenario.dave)]
  /\ outcomes (fst (run Scenario.page_gone)) = [LFailed (CStr "Alice")].
Proof. split; reflexivity. Qed.

(** C4 where a screenshot fails: Alice's scrape raises a timeout, the
    handler's screenshot raises in turn, and that leaves [main]: the batch
    does not go on to Dave, whose row would be attempted, and the closing
    line is never printed. *)
Theorem scrape_failure_stops_batch :
  scrape Scenario.page_gone [] "https://x/a" = inl Scenario.timeout
  /\ snd (run Scenario.page_gone) = Raised Scenario.closed
  /\ scrapes (fst (run Scenario.page_gone)) = ["https://x/a"%string]
  /\ attempted Scenario.page_gone [] (3, Scenario.dave) = true
  /\ ~ In (EPrint LDone) (fst (run Scenario.page_gone)).
Proof.
  repeat split; try reflexivity.
  intros H. vm_compute in H.
  repeat (destruct H as [H|H]; [discriminate H|]). exact H.
Qed.

(** ** The scrapes of a whole run *)

Lemma scrapes_for_each (w : World) (candidates : list (nat * Row)) (h : Trace) :
  snd (for_each (loop_body w) candidates h) = Returned tt ->
  scrapes (fst (for_each (loop_body w) candidates h))
  = flat_map url_of_pass candidates.
Proof.
  revert h. induction candidates as [|[index row] cs IH]; intros h.
  - reflexivity.
  - rewrite for_each_cons.
    pose proof (scrapes_loop_body w h index row) as Hc.
    destruct (loop_body w (index, row) h) as [ev [[]|e]]; cbn [fst snd] in *;
      [|discriminate].
    specialize (IH (h ++ ev)).
    destruct (for_each (loop_body w) cs (h ++ ev)) as [ev' r];
      cbn [fst snd] in *.
    intros Hr. rewrite scrapes_app, Hc, (IH Hr). reflexivity.
Qed.

(** A run that returns has scraped, in sheet order, the cleaned URLs of the
    rows the mask retains and the guard lets through, and nothing else. *)
Lemma run_scrapes (w : World) (df : DataFrame) :
  path_exists w = true ->
  read_excel w = inr df ->
  has_Conclusion df = true ->
  snd (run w) = Returned tt ->
  scrapes (fst (run w)) = flat_map url_of_pass (candidates_of df).
Proof.
  intros Ex Rd Hc. rewrite main_run, Ex.
  unfold read_candidates. rewrite Rd, Hc.
  destruct (candidates_of df) as [|c cs]; [reflexivity|].
  cbn zeta. rewrite batch_run. cbn zeta.
  set (h0 := (preamble w (length (c :: cs)) ++ opened)
             ++ fst (restore_session w (preamble w (length (c :: cs)) ++ opened))).
  pose proof (scrapes_for_each w (c :: cs) h0) as S.
  destruct (for_each (loop_body w) (c :: cs) h0) as [ev r]; cbn [fst snd] in *.
  intros Hr. rewrite !scrapes_app, (S Hr), restore_session_run.
  destruct (load_session w _); destruct r; cbn; rewrite ?app_nil_r; reflexivity.
Qed.

(** ** The scenarios of the specification *)

(** Scenario A: Alice is scraped, Carol is skipped, Bob leaves no trace. *)
Example scenario_A :
  scrapes (fst (run SpecScenario.succeeding)) = ["https://x/a"%string]
  /\ outcomes (fst (run SpecScenario.succeeding)) =
     [LSuccess "https://x/a"; LSkipping (CStr "Carol")].
Proof. split; reflexivity. Qed.

(** Scenario B: Alice's scrape times out, error_0.png is asked for, and the
    run goes on to its closing line. *)
Example scenario_B :
  outcomes (fst (run SpecScenario.failing)) = [LFailed (CStr "Alice"); LSkipping (CStr "Carol")]
  /\ screenshots (fst (run SpecScenario.failing)) = ["error_0.png"%string]
  /\ last (fst (run SpecScenario.failing)) EBrowserClose = EPrint LDone
  /\ snd (run SpecScenario.failing) = Returned tt.
Proof. repeat split; reflexivity. Qed.

(** The run that a failing screenshot cuts short still ends on the closing
    of the browser. *)
Example page_gone_closes :
  last (fst (run Scenario.page_gone)) (EPrint LDone) = EBrowserClose.
Proof. reflexivity. Qed.

(** One failure among successes: Alice fails and is diagnosed, Carol is
    skipped, Dave is scraped; the only pacing delay is the one after Dave. *)
Example alice_down_run :
  outcomes (fst (run Scenario.alice_down)) =
  [LFailed (CStr "Alice"); LSkipping (CStr "Carol"); LSuccess "https://x/current"]
  /\ screenshots (fst (run Scenario.alice_down)) = ["error_0.png"%string]
  /\ sleeps (fst (run Scenario.alice_down)) = [Fixed 15; Uniform 2.2 4.313]
  /\ paced false (fst (run Scenario.alice_down)) = false
  /\ snd (run Scenario.alice_down) = Returned tt.
Proof. repeat split; reflexivity. Qed.

(** * Further properties of [main] *)

(** ** The filter of line 35 *)

Lemma in_combine_seq {A} (l : list A) (a i : nat) (x : A) :
  In (i, x) (combine (seq a (length l)) l)
  <-> a <= i /\ nth_error l (i - a) = Some x.
Proof.
  revert a. induction l as [|y l IH]; intros a.
  - cbn. split; [contradiction|]. intros [_ H].
    destruct (i - a); discriminate H.
  - cbn [length seq combine In]. rewrite IH. split.
    + intros [E|[Hle Hn]].
      * injection E as -> ->. rewrite Nat.sub_diag. split; [lia | reflexivity].
      * split; [lia|]. replace (i - a) with (S (i - S a)) by lia. exact Hn.
    + intros [Hle Hn]. destruct (Nat.eq_dec i a) as [->|Hne].
      * rewrite Nat.sub_diag in Hn. cbn in Hn. injection Hn as ->. left. reflexivity.
      * right. split; [lia|].
        replace (i - a) with (S (i - S a)) in Hn by lia. exact Hn.
Qed.

(** X1: the candidates are the rows of the sheet whose conclusion passes
    the mask, each under the label of its own position in the sheet. *)
Theorem candidates_keep_position (df : DataFrame) (i : nat) (r : Row) :
  In (i, r) (candidates_of df)
  <-> nth_error (rows df) i = Some r /\ conclusion_is_yes r = true.
Proof.
  unfold candidates_of, iterrows. rewrite filter_In, in_combine_seq.
  cbn [snd]. rewrite Nat.sub_0_r. intuition lia.
Qed.

Lemma map_snd_filter_combine {A} (f : A -> bool) (l : list A) (a : nat) :
  map snd (filter (fun ir => f (snd ir)) (combine (seq a (length l)) l))
  = filter f l.
Proof.
  revert a. induction l as [|y l IH]; intros a; [reflexivity|].
  cbn [length seq combine filter snd].
  destruct (f y); cbn [map snd]; rewrite IH; reflexivity.
Qed.

Lemma labels_increase {A} (g : nat * A -> bool) (l : list A) (a : nat) :
  StronglySorted lt (map fst (filter g (combine (seq a (length l)) l)))
  /\ Forall (fun i => a <= i) (map fst (filter g (combine (seq a (length l)) l))).
Proof.
  revert a. induction l as [|y l IH]; intros a.
  - cbn. split; constructor.
  - cbn [length seq combine filter].
    destruct (IH (S a)) as [Hs Hf].
    assert (Hlt : Forall (fun i => a < i)
                    (map fst (filter g (combine (seq (S a) (length l)) l))))
      by (eapply Forall_impl; [|exact Hf]; cbn; intros; lia).
    destruct (g (a, y)); cbn [map fst].
    + split.
      * constructor; assumption.
      * constructor; [lia|]. eapply Forall_impl; [|exact Hlt]. cbn; intros; lia.
    + split; [assumption|]. eapply Forall_impl; [|exact Hlt]. cbn; intros; lia.
Qed.

(** X2: filtering neither reorders nor relabels: the candidates, read in
    order, are the retained rows in sheet order, and their labels increase
    strictly, so no two candidates share a label. *)
Theorem candidates_in_sheet_order (df : DataFrame) :
  map snd (candidates_of df) = filter conclusion_is_yes (rows df)
  /\ StronglySorted lt (map fst (candidates_of df))
  /\ NoDup (map fst (candidates_of df)).
Proof.
  unfold candidates_of, iterrows.
  split; [apply map_snd_filter_combine|].
  destruct (labels_increase (fun ir => conclusion_is_yes (snd ir)) (rows df) 0)
    as [Hs _].
  split; [exact Hs|].
  induction Hs as [|i l Hs IH Hall]; constructor; [|exact IH].
  intros Hin. rewrite Forall_forall in Hall.
  specialize (Hall i Hin). lia.
Qed.

(** ** Which cells pass the mask and the guard *)

Lemma lower_ascii_y (c : ascii) :
  PyStr.lower_ascii c = "y"%char -> c = "y"%char \/ c = "Y"%char.
Proof.
  destruct c as [[] [] [] [] [] [] [] []]; vm_compute; intros H;
    try discriminate H; auto.
Qed.

Lemma lower_ascii_e (c : ascii) :
  PyStr.lower_ascii c = "e"%char -> c = "e"%char \/ c = "E"%char.
Proof.
  destruct c as [[] [] [] [] [] [] [] []]; vm_compute; intros H;
    try discriminate H; auto.
Qed.

Lemma lower_ascii_s (c : ascii) :
  PyStr.lower_ascii c = "s"%char -> c = "s"%char \/ c = "S"%char.
Proof.
  destruct c as [[] [] [] [] [] [] [] []]; vm_compute; intros H;
    try discriminate H; auto.
Qed.

Lemma lower_is_yes (s : string) :
  PyStr.lower s = "yes"%string <-> In s yes_spellings.
Proof.
  split.
  - destruct s as [|c1 [|c2 [|c3 [|c4 s]]]]; cbn [PyStr.lower];
      intros H; try discriminate H.
    injection H as H1 H2 H3.
    destruct (lower_ascii_y _ H1) as [-> | ->];
      destruct (lower_ascii_e _ H2) as [-> | ->];
      destruct (lower_ascii_s _ H3) as [-> | ->];
      cbn; tauto.
  - cbn. intros H.
    repeat (destruct H as [<-|H]; [reflexivity|]). contradiction.
Qed.

(** The text of an int starts with a digit or a minus sign. *)
Lemma lower_of_Z_not_yes (z : Z) : PyStr.lower (PyStr.of_Z z) <> "yes"%string.
Proof.
  unfold PyStr.of_Z.
  destruct (Z.to_int z) as [d|d]; destruct d; cbn; discriminate.
Qed.

(** X3: the mask retains a row exactly when its Conclusion cell is a str
    spelling "yes" in some mix of letter case; an empty cell, a number, a
    bool, and a "yes" with anything around it, white space included, are
    all dropped. *)
Theorem conclusion_is_yes_iff (r : Row) :
  conclusion_is_yes r = true
  <-> exists s, Conclusion r = CStr s /\ In s yes_spellings.
Proof.
  unfold conclusion_is_yes. rewrite String.eqb_eq. split.
  - destruct (Conclusion r) as [| |s|z|[|]]; cbn; intros H;
      try discriminate H.
    + exists s. split; [reflexivity|]. apply lower_is_yes, H.
    + exfalso. exact (lower_of_Z_not_yes z H).
  - intros (s & -> & Hs). cbn. apply lower_is_yes, Hs.
Qed.

(** X4: a pass leaves the scraper alone exactly when the LinkedIn value is
    NaN, None, the empty string, the number zero or False; any other value,
    a string of blanks or a non-zero number included, is scraped. *)
Theorem skipped_cells (w : World) (h : Trace) (index : nat) (row : Row) :
  scrapes (fst (loop_body w (index, row) h)) = []
  <-> In (LinkedIn row) [CNaN; CNone; CStr ""; CInt 0; CBool false].
Proof.
  rewrite scrapes_loop_body. unfold no_linkedin_url.
  destruct (LinkedIn row) as [| |s|z|[|]]; cbn;
    try (split; [intros _; tauto | reflexivity]);
    try (split; [discriminate | intros H; repeat (destruct H as [H|H]; try discriminate H); contradiction]).
  - destruct (String.eqb_spec s ""); cbn.
    + subst. split; [tauto | reflexivity].
    + split; [discriminate|]. intros H.
      repeat (destruct H as [H|H]; try discriminate H); try contradiction.
      injection H as <-. contradiction.
  - destruct (Z.eqb_spec z 0); cbn.
    + subst. split; [tauto | reflexivity].
    + split; [discriminate|]. intros H.
      repeat (destruct H as [H|H]; try discriminate H); try contradiction.
      injection H as <-. contradiction.
Qed.

(** ** Induction over the trace of a run *)

(** A property of traces that holds of the empty trace, is kept by
    concatenation and holds of the events of every pass holds of the events
    of the loop. *)
Lemma for_each_closed (w : World) (R : Trace -> Prop) :
  R [] ->
  (forall a b, R a -> R b -> R (a ++ b)) ->
  (forall ir h, R (fst (loop_body w ir h))) ->
  forall candidates h, R (fst (for_each (loop_body w) candidates h)).
Proof.
  intros Hnil Happ Hpass candidates.
  induction candidates as [|c cs IH]; intros h; [exact Hnil|].
  rewrite for_each_cons.
  pose proof (Hpass c h) as Hc.
  destruct (loop_body w c h) as [ev [[]|e]]; cbn [fst] in *; [|exact Hc].
  specialize (IH (h ++ ev)).
  destruct (for_each (loop_body w) cs (h ++ ev)) as [ev' r]; cbn [fst] in *.
  apply Happ; assumption.
Qed.

(** If it also holds of each event [main] logs outside the loop, it holds
    of the trace of every run. *)
Lemma run_closed (w : World) (R : Trace -> Prop) :
  R [] ->
  (forall a b, R a -> R b -> R (a ++ b)) ->
  (forall l, is_frame_line l = true -> R [EPrint l]) ->
  R [EBrowserOpen false browser_args] ->
  (forall ok, R [ELoadSession session_file ok]) ->
  R [EBrowserClose] ->
  (forall ir h, R (fst (loop_body w ir h))) ->
  R (fst (run w)).
Proof.
  intros Hnil Happ Hline Hopen Hload Hclose Hpass.
  assert (Hcons : forall e tr, R [e] -> R tr -> R (e :: tr))
    by (intros e tr He Htr; exact (Happ [e] tr He Htr)).
  rewrite main_run.
  destruct (path_exists w); [|cbn; apply Hline; reflexivity].
  destruct (read_candidates w) as [e|[|c cs]].
  - cbn. apply Hcons; apply Hline; reflexivity.
  - cbn. repeat (apply Hcons; [apply Hline; reflexivity|]). exact Hnil.
  - cbn zeta. rewrite batch_run. cbn zeta.
    set (pre := preamble w (length (c :: cs)) ++ opened).
    pose proof (for_each_closed w R Hnil Happ Hpass (c :: cs)
                  (pre ++ fst (restore_session w pre))) as Hloop.
    destruct (for_each (loop_body w) (c :: cs) _) as [ev r]; cbn [fst] in *.
    apply Happ.
    { subst pre. unfold preamble, opened. cbn.
      repeat (apply Hcons; [apply Hline; reflexivity|]). exact Hopen. }
    apply Happ.
    { apply Happ; [|exact Hloop].
      rewrite restore_session_run.
      destruct (load_session w pre); cbn;
        (apply Hcons; [apply Hload | apply Hline; reflexivity]). }
    apply Hcons; [exact Hclose|].
    destruct r; [apply Hline; reflexivity | exact Hnil].
Qed.

(** ** Sleeps, screenshots and the session, counted over a run *)

Lemma loads_app (a b : Trace) : loads (a ++ b) = loads a ++ loads b.
Proof. apply flat_map_app. Qed.

Lemma openings_app (a b : Trace) : openings (a ++ b) = openings a ++ openings b.
Proof. apply flat_map_app. Qed.

Lemma row_lines_app (a b : Trace) : row_lines (a ++ b) = row_lines a ++ row_lines b.
Proof. apply flat_map_app. Qed.

Lemma screenshots_prints (ls : list Line) : screenshots (map EPrint ls) = [].
Proof. induction ls; [reflexivity | assumption]. Qed.

Lemma openings_prints (ls : list Line) : openings (map EPrint ls) = [].
Proof. induction ls; [reflexivity | assumption]. Qed.

Lemma loads_prints (ls : list Line) : loads (map EPrint ls) = [].
Proof. induction ls; [reflexivity | assumption]. Qed.

Lemma report_no_row_line (p : Person) : row_lines (map EPrint (report p)) = [].
Proof.
  unfold report.
  destruct (experiences p) as [|x1 [|x2 xs]];
    destruct (educations p) as [|y1 [|y2 ys]]; reflexivity.
Qed.

#[local] Hint Rewrite loads_app openings_app row_lines_app screenshots_prints
  openings_prints loads_prints report_no_row_line : observe.

(** Splits on what the world answers in a pass and reads the events. *)
Ltac pass_cases w row :=
  rewrite loop_body_run;
  destruct (no_linkedin_url (LinkedIn row)) eqn:?; [reflexivity|];
  destruct (scrape w _ _) as [?e|?p]; cbn zeta;
  [ destruct (screenshot w _ _); cbn [fst]; observe; reflexivity
  | cbn [fst]; observe; reflexivity ].

Lemma sleeps_of_pass (w : World) (ir : nat * Row) (h : Trace) :
  sleeps (fst (loop_body w ir h))
  = flat_map sleeps_due (outcomes (fst (loop_body w ir h))).
Proof. destruct ir as [index row]. pass_cases w row. Qed.

Lemma screenshots_of_pass (w : World) (ir : nat * Row) (h : Trace) :
  length (screenshots (fst (loop_body w ir h)))
  = length (filter is_failed (outcomes (fst (loop_body w ir h)))).
Proof. destruct ir as [index row]. pass_cases w row. Qed.

(** X5: in every run, returning or raising, the sleeps are those of its
    successes and nothing else: a settle delay of 15 and a pacing delay
    uniform(2.2, 4.313) for each success line, in that order, and no sleep
    for a skipped or a failed candidate. *)
Theorem sleeps_follow_successes (w : World) :
  sleeps (fst (run w)) = flat_map sleeps_due (outcomes (fst (run w))).
Proof.
  apply (run_closed w
           (fun tr => sleeps tr = flat_map sleeps_due (outcomes tr))).
  - reflexivity.
  - intros a b Ha Hb.
    rewrite sleeps_app, outcomes_app, flat_map_app, Ha, Hb. reflexivity.
  - intros [] H; try discriminate H; reflexivity.
  - reflexivity.
  - reflexivity.
  - reflexivity.
  - intros ir h. apply sleeps_of_pass.
Qed.

(** X6: in every run there are as many screenshot requests as failure
    lines: one is asked for on each failed scrape and on nothing else. *)
Theorem screenshots_follow_failures (w : World) :
  length (screenshots (fst (run w)))
  = length (filter is_failed (outcomes (fst (run w)))).
Proof.
  apply (run_closed w
           (fun tr => length (screenshots tr)
                      = length (filter is_failed (outcomes tr)))).
  - reflexivity.
  - intros a b Ha Hb.
    rewrite screenshots_app, outcomes_app, filter_app, !length_app, Ha, Hb.
    reflexivity.
  - intros [] H; try discriminate H; reflexivity.
  - reflexivity.
  - reflexivity.
  - reflexivity.
  - intros ir h. apply screenshots_of_pass.
Qed.

Lemma session_after_app (tried : bool) (a b : Trace) :
  session_after tried (a ++ b) =
  match session_after tried a with
  | Some tried' => session_after tried' b
  | None => None
  end.
Proof.
  revert tried. induction a as [|e a IH]; intros tried; [reflexivity|].
  cbn [app session_after]. destruct e; try apply IH; destruct tried; auto.
Qed.

Lemma session_after_prints (tried : bool) (ls : list Line) :
  session_after tried (map EPrint ls) = Some tried.
Proof. induction ls; [reflexivity | assumption]. Qed.

Lemma for_each_after_session (w : World) (candidates : list (nat * Row))
    (h : Trace) :
  session_after true (fst (for_each (loop_body w) candidates h)) = Some true.
Proof.
  apply (for_each_closed w (fun tr => session_after true tr = Some true)).
  - reflexivity.
  - intros a b Ha Hb. rewrite session_after_app, Ha. exact Hb.
  - intros [index row] h'. rewrite loop_body_run.
    destruct (no_linkedin_url (LinkedIn row)); [reflexivity|].
    destruct (scrape w _ _) as [e|p]; cbn zeta.
    + destruct (screenshot w _ _); reflexivity.
    + cbn [fst]. unfold success_events, announce. cbn [app session_after].
      rewrite session_after_app, session_after_prints. reflexivity.
Qed.

(** The loop neither opens a browser nor loads a session. *)
Lemma loop_opens_nothing (w : World) (candidates : list (nat * Row)) (h : Trace) :
  loads (fst (for_each (loop_body w) candidates h)) = []
  /\ openings (fst (for_each (loop_body w) candidates h)) = [].
Proof.
  apply (for_each_closed w (fun tr => loads tr = [] /\ openings tr = [])).
  - split; reflexivity.
  - intros a b [Ha1 Ha2] [Hb1 Hb2].
    rewrite loads_app, openings_app, Ha1, Ha2, Hb1, Hb2. split; reflexivity.
  - intros [index row] h'. split; pass_cases w row.
Qed.

(** X7: in every run the session is loaded at most once, from
    linkedin_session.json, and no scrape is made before that call; it is
    made exactly in the runs that open the browser. *)
Theorem session_tried_once_before_scrapes (w : World) :
  session_after false (fst (run w))
  = Some (match openings (fst (run w)) with [] => false | _ :: _ => true end)
  /\ loads (fst (run w)) = map (fun _ => session_file) (openings (fst (run w))).
Proof.
  split.
  - rewrite main_run.
    destruct (path_exists w); [|reflexivity].
    destruct (read_candidates w) as [e|[|c cs]]; [reflexivity|reflexivity|].
    cbn zeta. rewrite batch_run. cbn zeta.
    set (pre := preamble w (length (c :: cs)) ++ opened).
    pose proof (for_each_after_session w (c :: cs)
                  (pre ++ fst (restore_session w pre))) as Hloop.
    destruct (for_each (loop_body w) (c :: cs) _) as [ev r]; cbn [fst] in *.
    subst pre. unfold preamble, opened. cbn [app session_after openings flat_map].
    rewrite restore_session_run.
    destruct (load_session w _); cbn [fst app session_after];
      rewrite session_after_app, Hloop; destruct r; reflexivity.
  - rewrite main_run.
    destruct (path_exists w); [|reflexivity].
    destruct (read_candidates w) as [e|[|c cs]]; [reflexivity|reflexivity|].
    cbn zeta. rewrite batch_run. cbn zeta.
    set (pre := preamble w (length (c :: cs)) ++ opened).
    destruct (loop_opens_nothing w (c :: cs)
                (pre ++ fst (restore_session w pre))) as [Hl Ho].
    destruct (for_each (loop_body w) (c :: cs) _) as [ev r]; cbn [fst] in *.
    rewrite !loads_app, !openings_app, Hl, Ho, restore_session_run.
    destruct (load_session w _); destruct r; reflexivity.
Qed.

(** ** Opening the browser *)

Lemma existsb_filter {A} (f : A -> bool) (l : list A) :
  existsb f l = match filter f l with [] => false | _ :: _ => true end.
Proof.
  induction l as [|x l IH]; [reflexivity|].
  cbn. destruct (f x); [reflexivity | exact IH].
Qed.

Lemma candidates_nil_iff (df : DataFrame) :
  existsb conclusion_is_yes (rows df)
  = match candidates_of df with [] => false | _ :: _ => true end.
Proof.
  rewrite existsb_filter.
  unfold candidates_of, iterrows.
  rewrite <- (map_snd_filter_combine conclusion_is_yes (rows df) 0).
  destruct (filter _ _); reflexivity.
Qed.

(** X8: over a readable sheet the browser is opened once, not headless,
    when at least one row passes the mask, and not at all otherwise; it is
    opened even when every retained row will be skipped for its missing
    URL. *)
Theorem browser_opened_iff_retained (w : World) (df : DataFrame) :
  path_exists w = true ->
  read_excel w = inr df ->
  has_Conclusion df = true ->
  openings (fst (run w))
  = if existsb conclusion_is_yes (rows df) then [false] else [].
Proof.
  intros Ex Rd Hc. rewrite candidates_nil_iff, main_run, Ex.
  unfold read_candidates. rewrite Rd, Hc.
  destruct (candidates_of df) as [|c cs]; [reflexivity|].
  cbn zeta. rewrite batch_run. cbn zeta.
  set (pre := preamble w (length (c :: cs)) ++ opened).
  destruct (loop_opens_nothing w (c :: cs)
              (pre ++ fst (restore_session w pre))) as [_ Ho].
  destruct (for_each (loop_body w) (c :: cs) _) as [ev r]; cbn [fst] in *.
  rewrite !openings_app, Ho, restore_session_run.
  destruct (load_session w _); destruct r; reflexivity.
Qed.

Lemma browser_opened_iff_retained_witness :
  openings (fst (run Edge.carol_only)) = [false]
  /\ scrapes (fst (run Edge.carol_only)) = []
  /\ openings (fst (run Edge.nobody)) = [].
Proof.
  split; [|split].
  - exact (browser_opened_iff_retained Edge.carol_only
             (mkDF true [Scenario.bob; Scenario.carol])
             eq_refl eq_refl eq_refl).
  - reflexivity.
  - exact (browser_opened_iff_retained Edge.nobody (mkDF true [Scenario.bob])
             eq_refl eq_refl eq_refl).
Defined.

(** ** Runs that return and runs that raise *)

(** X9: whatever the scraper and the session do, a run over a readable
    sheet whose screenshots do not raise returns: every retained row gets
    one outcome line, the scraper is called, in sheet order, with the
    cleaned URL of each retained row that has one, and the last line is the
    closing line of the batch or, with no candidate, the line saying so. *)
Theorem run_completes_when_screenshots_work (w : World) (df : DataFrame) :
  path_exists w = true ->
  read_excel w = inr df ->
  has_Conclusion df = true ->
  (forall h f, screenshot w h f = None) ->
  snd (run w) = Returned tt
  /\ length (outcomes (fst (run w)))
     = length (filter conclusion_is_yes (rows df))
  /\ scrapes (fst (run w)) = flat_map url_of_pass (candidates_of df)
  /\ last (fst (run w)) EBrowserClose
     = EPrint (if existsb conclusion_is_yes (rows df) then LDone
               else LNoCandidates).
Proof.
  intros Ex Rd Hc Hs.
  assert (Rc : read_candidates w = inr (candidates_of df))
    by (unfold read_candidates; rewrite Rd, Hc; reflexivity).
  destruct (run_outcomes_complete w (candidates_of df) Ex Rc Hs) as [Hr Ho].
  split; [exact Hr|]. split; [|split].
  - rewrite Ho. unfold candidates_of, iterrows.
    rewrite <- (map_snd_filter_combine conclusion_is_yes (rows df) 0).
    rewrite length_map. reflexivity.
  - apply run_scrapes; assumption.
  - rewrite candidates_nil_iff. revert Hr. rewrite main_run, Ex, Rc.
    destruct (candidates_of df) as [|c cs]; [reflexivity|].
    cbn zeta.
    destruct (batch w (c :: cs) _) as [ev [[]|e]]; cbn [snd]; [|discriminate].
    intros _. rewrite !app_assoc.
    change (?a ++ EBrowserClose :: [EPrint LDone])
      with (a ++ [EBrowserClose] ++ [EPrint LDone]).
    rewrite !app_assoc. apply last_last.
Qed.

Lemma run_completes_when_screenshots_work_witness :
  snd (run Scenario.alice_down) = Returned tt
  /\ length (outcomes (fst (run Scenario.alice_down))) = 3
  /\ scrapes (fst (run Scenario.alice_down))
     = ["https://x/a"; "https://x/d"]%string.
Proof.
  destruct (run_completes_when_screenshots_work Scenario.alice_down
              Scenario.sheet eq_refl eq_refl eq_refl (fun _ _ => eq_refl))
    as (R & O & S & _).
  split; [exact R|]. split; [exact O | exact S].
Defined.




(** ** The names of the screenshots *)

Lemma to_uint_not_nil (n : nat) : Nat.to_uint n <> Decimal.Nil.
Proof.
  intros H. pose proof (Unsigned.of_to n) as E. rewrite H in E.
  cbn in E. subst n. discriminate H.
Qed.

Lemma of_nat_inj (n m : nat) : PyStr.of_nat n = PyStr.of_nat m -> n = m.
Proof.
  unfold PyStr.of_nat. intros H. apply Unsigned.to_uint_inj.
  pose proof (NilZero.usu _ (to_uint_not_nil n)) as En.
  pose proof (NilZero.usu _ (to_uint_not_nil m)) as Em.
  rewrite H in En. rewrite En in Em. injection Em as ->. reflexivity.
Qed.

Lemma string_length_app (a b : string) :
  String.length (a ++ b) = String.length a + String.length b.
Proof. induction a as [|c a IH]; cbn; [reflexivity | rewrite IH; reflexivity]. Qed.

Lemma string_app_inv_tail (a b s : string) :
  (a ++ s)%string = (b ++ s)%string -> a = b.
Proof.
  revert b. induction a as [|c a IH]; intros [|c' b] H.
  - reflexivity.
  - apply (f_equal String.length) in H. cbn in H.
    rewrite string_length_app in H. lia.
  - apply (f_equal String.length) in H. cbn in H.
    rewrite string_length_app in H. lia.
  - cbn in H. injection H as -> H. rewrite (IH b H). reflexivity.
Qed.

Lemma error_png_inj (i j : nat) : error_png i = error_png j -> i = j.
Proof.
  unfold error_png. cbn. intros H. injection H as H.
  apply of_nat_inj, (string_app_inv_tail _ _ ".png"), H.
Qed.

Lemma candidate_labels_nodup (df : DataFrame) :
  NoDup (map fst (candidates_of df)).
Proof.
  unfold candidates_of, iterrows.
  destruct (labels_increase (fun ir => conclusion_is_yes (snd ir)) (rows df) 0)
    as [Hs _].
  induction Hs as [|i l Hs IH Hall]; constructor; [|exact IH].
  intros Hin. rewrite Forall_forall in Hall.
  specialize (Hall i Hin). lia.
Qed.

Lemma screenshots_pass_cases (w : World) (h : Trace) (index : nat) (row : Row) :
  screenshots (fst (loop_body w (index, row) h)) = []
  \/ (no_linkedin_url (LinkedIn row) = false
      /\ screenshots (fst (loop_body w (index, row) h)) = [error_png index]).
Proof.
  rewrite loop_body_run.
  destruct (no_linkedin_url (LinkedIn row)); [left; reflexivity|].
  destruct (scrape w _ _) as [e|p]; cbn zeta.
  - right. split; [reflexivity|].
    destruct (screenshot w _ _); cbn [fst]; observe; reflexivity.
  - left. cbn [fst]. observe. reflexivity.
Qed.

Lemma screenshots_of_loop (w : World) (candidates : list (nat * Row)) (h : Trace) :
  NoDup (map fst candidates) ->
  NoDup (screenshots (fst (for_each (loop_body w) candidates h)))
  /\ forall f, In f (screenshots (fst (for_each (loop_body w) candidates h))) ->
       exists i r, In (i, r) candidates /\ f = error_png i
                   /\ no_linkedin_url (LinkedIn r) = false.
Proof.
  revert h. induction candidates as [|[index row] cs IH]; intros h Hnd.
  - cbn. split; [constructor | contradiction].
  - cbn [map fst] in Hnd. inversion Hnd as [|? ? Hnotin Hnd']; subst.
    rewrite for_each_cons.
    pose proof (screenshots_pass_cases w h index row) as Hc.
    destruct (loop_body w (index, row) h) as [ev r]; cbn [fst] in *.
    assert (Hev : forall f, In f (screenshots ev) ->
                    f = error_png index /\ no_linkedin_url (LinkedIn row) = false).
    { intros f Hf. destruct Hc as [E|[Hu E]]; rewrite E in Hf.
      - contradiction.
      - destruct Hf as [<-|[]]. split; [reflexivity | exact Hu]. }
    assert (Hnd_ev : NoDup (screenshots ev)).
    { destruct Hc as [E|[_ E]]; rewrite E; repeat constructor.
      intros []. }
    destruct r as [[]|e]; cbn [fst].
    + destruct (IH (h ++ ev) Hnd') as [Hnd_rest Hin_rest].
      destruct (for_each (loop_body w) cs (h ++ ev)) as [ev' r']; cbn [fst] in *.
      rewrite screenshots_app. split.
      * apply NoDup_app; [exact Hnd_ev | exact Hnd_rest |].
        intros f Hf Hf'. destruct (Hev f Hf) as [-> _].
        destruct (Hin_rest _ Hf') as (j & r & Hin & Ej & _).
        apply error_png_inj in Ej. subst j.
        apply Hnotin. apply (in_map fst) in Hin. exact Hin.
      * intros f Hf. apply in_app_or in Hf. destruct Hf as [Hf|Hf].
        -- destruct (Hev f Hf) as [-> Hu].
           exists index, row. split; [left; reflexivity | split; [reflexivity | exact Hu]].
        -- destruct (Hin_rest f Hf) as (j & r & Hin & Ej & Hu).
           exists j, r. split; [right; exact Hin | split; assumption].
    + split; [exact Hnd_ev|].
      intros f Hf. destruct (Hev f Hf) as [-> Hu].
      exists index, row. split; [left; reflexivity | split; [reflexivity | exact Hu]].
Qed.

(** X11: over a readable sheet every screenshot a run asks for is named
    error_<i>.png after the sheet position [i] of a row that passed the mask
    and the guard, and no file name is asked for twice, so no diagnostic
    overwrites another within a run. *)
Theorem screenshots_named_after_rows (w : World) (df : DataFrame) :
  path_exists w = true ->
  read_excel w = inr df ->
  has_Conclusion df = true ->
  NoDup (screenshots (fst (run w)))
  /\ forall f, In f (screenshots (fst (run w))) ->
       exists i r, f = error_png i
                   /\ nth_error (rows df) i = Some r
                   /\ conclusion_is_yes r = true
                   /\ no_linkedin_url (LinkedIn r) = false.
Proof.
  intros Ex Rd Hc. rewrite main_run, Ex.
  unfold read_candidates. rewrite Rd, Hc.
  pose proof (candidate_labels_nodup df) as Hnd.
  assert (Hpos : forall i r, In (i, r) (candidates_of df) ->
                   nth_error (rows df) i = Some r /\ conclusion_is_yes r = true).
  { intros i r Hin. unfold candidates_of, iterrows in Hin.
    rewrite filter_In, in_combine_seq in Hin. cbn [snd] in Hin.
    rewrite Nat.sub_0_r in Hin. tauto. }
  destruct (candidates_of df) as [|c cs];
    [split; [constructor | contradiction]|].
  cbn zeta. rewrite batch_run. cbn zeta.
  set (pre := preamble w (length (c :: cs)) ++ opened).
  destruct (screenshots_of_loop w (c :: cs)
              (pre ++ fst (restore_session w pre)) Hnd) as [Hn Hin].
  destruct (for_each (loop_body w) (c :: cs) _) as [ev r]; cbn [fst] in *.
  assert (E : screenshots (pre ++ (fst (restore_session w pre) ++ ev)
                               ++ EBrowserClose
                                  :: match r with
                                     | Returned _ => [EPrint LDone]
                                     | Raised _ => []
                                     end)
              = screenshots ev).
  { rewrite !screenshots_app, restore_session_run.
    destruct (load_session w pre); destruct r; cbn; rewrite ?app_nil_r;
      reflexivity. }
  rewrite E. split; [exact Hn|].
  intros f Hf. destruct (Hin f Hf) as (i & r0 & Hi & Ef & Hu).
  destruct (Hpos i r0 Hi) as [Hnth Hy].
  exists i, r0. tauto.
Qed.

Lemma screenshots_named_after_rows_witness :
  NoDup (screenshots (fst (run Scenario.timing_out)))
  /\ screenshots (fst (run Scenario.timing_out))
     = [error_png 0; error_png 3].
Proof.
  destruct (screenshots_named_after_rows Scenario.timing_out Scenario.sheet
              eq_refl eq_refl eq_refl) as [N _].
  split; [exact N | reflexivity].
Defined.

(** ** The URL handed to the scraper *)

Lemma lstrip_no_lead (s : string) : starts_with_space (PyStr.lstrip s) = false.
Proof.
  induction s as [|c s IH]; [reflexivity|].
  cbn [PyStr.lstrip]. destruct (PyStr.isspace c) eqn:E; [exact IH|].
  cbn. exact E.
Qed.

Lemma lstrip_fixed (s : string) :
  starts_with_space s = false -> PyStr.lstrip s = s.
Proof.
  destruct s as [|c s]; [reflexivity|]. cbn. intros ->. reflexivity.
Qed.

Lemma rstrip_keeps_lead (s : string) :
  starts_with_space s = false -> starts_with_space (PyStr.rstrip s) = false.
Proof.
  destruct s as [|c s]; [reflexivity|]. cbn [starts_with_space PyStr.rstrip].
  intros E. destruct (PyStr.rstrip s).
  - rewrite E. cbn. exact E.
  - cbn. exact E.
Qed.

Lemma rstrip_no_trail (s : string) : ends_with_space (PyStr.rstrip s) = false.
Proof.
  induction s as [|c s IH]; [reflexivity|].
  cbn [PyStr.rstrip]. destruct (PyStr.rstrip s) as [|c' r].
  - destruct (PyStr.isspace c) eqn:E; [reflexivity|]. cbn. exact E.
  - exact IH.
Qed.

Lemma rstrip_fixed (s : string) : PyStr.rstrip (PyStr.rstrip s) = PyStr.rstrip s.
Proof.
  induction s as [|c s IH]; [reflexivity|].
  cbn [PyStr.rstrip]. destruct (PyStr.rstrip s) as [|c' r].
  - destruct (PyStr.isspace c) eqn:E; [reflexivity|].
    cbn [PyStr.rstrip]. rewrite E. reflexivity.
  - cbn [PyStr.rstrip] in *. rewrite IH. reflexivity.
Qed.

Lemma strip_trimmed (s : string) :
  starts_with_space (PyStr.strip s) = false
  /\ ends_with_space (PyStr.strip s) = false
  /\ PyStr.strip (PyStr.strip s) = PyStr.strip s.
Proof.
  unfold PyStr.strip.
  pose proof (rstrip_keeps_lead _ (lstrip_no_lead s)) as Hl.
  split; [exact Hl|]. split; [apply rstrip_no_trail|].
  rewrite (lstrip_fixed _ Hl). apply rstrip_fixed.
Qed.

(** X12: every URL a run hands to the scraper is trimmed: it neither
    starts nor ends with white space and stripping it again changes
    nothing. *)
Theorem scraped_urls_are_trimmed (w : World) :
  Forall (fun u => starts_with_space u = false
                   /\ ends_with_space u = false
                   /\ PyStr.strip u = u)
         (scrapes (fst (run w))).
Proof.
  apply (run_closed w
           (fun tr => Forall (fun u => starts_with_space u = false
                                       /\ ends_with_space u = false
                                       /\ PyStr.strip u = u) (scrapes tr))).
  - constructor.
  - intros a b Ha Hb. rewrite scrapes_app. apply Forall_app. split; assumption.
  - intros l _. constructor.
  - constructor.
  - intros ok. constructor.
  - constructor.
  - intros [index row] h. rewrite scrapes_loop_body.
    destruct (no_linkedin_url (LinkedIn row)); constructor; [|constructor].
    apply strip_trimmed.
Qed.

(** ** The size of the summary *)

(** X13: whatever the profile holds, the summary of a success is short:
    seven fixed lines, at most two experience lines and at most two
    education lines, eleven lines at most, and its about line carries at
    most 100 characters of text. *)
Theorem summary_is_bounded (p : Person) (h : Trace) :
  length (fst (show_person p h))
  = 7 + Nat.min 2 (length (experiences p)) + Nat.min 2 (length (educations p))
  /\ length (fst (show_person p h)) <= 11
  /\ String.length (about_text p) <= 100
  /\ snd (show_person p h) = Returned tt.
Proof.
  rewrite show_person_run. cbn [fst snd].
  assert (E : length (map EPrint (report p))
              = 7 + Nat.min 2 (length (experiences p))
                + Nat.min 2 (length (educations p))).
  { unfold report. rewrite length_map, !length_app, !length_map, !length_firstn.
    cbn [length]. lia. }
  split; [exact E|]. split; [rewrite E; lia|]. split; [|reflexivity].
  unfold about_text. destruct (about p) as [s|]; [|cbn; lia].
  destruct (s =? "")%string; [cbn; lia|].
  rewrite take_length. lia.
Qed.

(** ** The order of the passes *)

Lemma row_lines_of_pass (w : World) (ir : nat * Row) (h : Trace) :
  row_lines (fst (loop_body w ir h)) = [row_line_of ir].
Proof.
  destruct ir as [index row]. unfold row_line_of. cbn [fst snd].
  rewrite loop_body_run.
  destruct (no_linkedin_url (LinkedIn row)); [reflexivity|].
  destruct (scrape w _ _) as [e|p]; cbn zeta.
  - destruct (screenshot w _ _); cbn [fst]; observe; reflexivity.
  - cbn [fst]. observe. reflexivity.
Qed.

Lemma row_lines_of_loop (w : World) (candidates : list (nat * Row)) (h : Trace) :
  exists n,
    n <= length candidates
    /\ row_lines (fst (for_each (loop_body w) candidates h))
       = map row_line_of (firstn n candidates)
    /\ (snd (for_each (loop_body w) candidates h) = Returned tt ->
        n = length candidates).
Proof.
  revert h. induction candidates as [|c cs IH]; intros h.
  - exists 0. cbn. repeat split; lia.
  - rewrite for_each_cons.
    pose proof (row_lines_of_pass w c h) as Hc.
    destruct (loop_body w c h) as [ev [[]|e]]; cbn [fst snd] in *.
    + destruct (IH (h ++ ev)) as (n & Hle & Hrl & Hret).
      destruct (for_each (loop_body w) cs (h ++ ev)) as [ev' r];
        cbn [fst snd] in *.
      exists (S n). cbn [length firstn map]. split; [lia|]. split.
      * rewrite row_lines_app, Hc, Hrl. reflexivity.
      * intros Hr. rewrite (Hret Hr). reflexivity.
    + exists 1. cbn [length firstn map]. split; [lia|]. split.
      * exact Hc.
      * discriminate.
Qed.

(** X14: over a readable sheet a run visits the candidates strictly in
    sheet order, each at most once: its skip and processing lines are those
    of the first [n] candidates, one line each, for some [n], and of all of
    them when the run returns. *)
Theorem candidates_visited_in_order (w : World) (df : DataFrame) :
  path_exists w = true ->
  read_excel w = inr df ->
  has_Conclusion df = true ->
  exists n,
    n <= length (candidates_of df)
    /\ row_lines (fst (run w)) = map row_line_of (firstn n (candidates_of df))
    /\ (snd (run w) = Returned tt -> n = length (candidates_of df)).
Proof.
  intros Ex Rd Hc. rewrite main_run, Ex.
  unfold read_candidates. rewrite Rd, Hc.
  destruct (candidates_of df) as [|c cs].
  - exists 0. cbn. repeat split; lia.
  - cbn zeta. rewrite batch_run. cbn zeta.
    set (pre := preamble w (length (c :: cs)) ++ opened).
    destruct (row_lines_of_loop w (c :: cs)
                (pre ++ fst (restore_session w pre))) as (n & Hle & Hrl & Hret).
    destruct (for_each (loop_body w) (c :: cs) _) as [ev r]; cbn [fst snd] in *.
    exists n. split; [exact Hle|]. split; [|exact Hret].
    rewrite !row_lines_app, Hrl, restore_session_run.
    destruct (load_session w pre); destruct r; cbn; rewrite ?app_nil_r;
      reflexivity.
Qed.

Lemma candidates_visited_in_order_witness :
  exists n,
    n <= 3
    /\ row_lines (fst (run Scenario.page_gone))
       = map row_line_of (firstn n (candidates_of Scenario.sheet)).
Proof.
  destruct (candidates_visited_in_order Scenario.page_gone Scenario.sheet
              eq_refl eq_refl eq_refl) as (n & Hle & Hrl & _).
  exists n. split; [exact Hle | exact Hrl].
Defined.

(** ** The failed pass, when its screenshot is taken *)

(** X15: when the scrape of a row raises [e] and the screenshot is taken,
    the pass returns, and between the scrape and its return it prints the
    failure line with the row's name, the type and the message of [e] and
    the page's URL, asks for error_<index>.png and reports it saved; it
    does not sleep and does not scrape again. *)
Theorem failed_pass_is_diagnosed (w : World) (h : Trace) (index : nat)
    (row : Row) (e : Exn) :
  no_linkedin_url (LinkedIn row) = false ->
  scrape w (h ++ announce index row) (clean_url (LinkedIn row)) = inl e ->
  screenshot w (h ++ failure_lines w h index row e) (error_png index) = None ->
  exists u : string,
    loop_body w (index, row) h =
    (announce index row
     ++ [EScrape (clean_url (LinkedIn row));
         EPrint (LFailed (Nama_Mahasiswa row));
         EPrint (LErrorType (exn_type e));
         EPrint (LErrorMsg (exn_msg e));
         EPrint (LBrowserUrl u);
         EScreenshot (error_png index);
         EPrint (LScreenshotSaved index)],
     Returned tt).
Proof.
  intros Hu Hsc Hsh.
  rewrite loop_body_run, Hu, Hsc. cbn zeta. rewrite Hsh.
  unfold failure_lines. eexists. rewrite <- !app_assoc. reflexivity.
Qed.

Lemma failed_pass_is_diagnosed_witness :
  exists u : string,
    fst (loop_body Scenario.timing_out (0, Scenario.alice) []) =
    announce 0 Scenario.alice
    ++ [EScrape "https://x/a";
        EPrint (LFailed (CStr "Alice"));
        EPrint (LErrorType "TimeoutError");
        EPrint (LErrorMsg "Timeout 30000ms exceeded");
        EPrint (LBrowserUrl u);
        EScreenshot "error_0.png";
        EPrint (LScreenshotSaved 0)].
Proof.
  destruct (failed_pass_is_diagnosed Scenario.timing_out [] 0 Scenario.alice
              Scenario.timeout eq_refl eq_refl eq_refl) as [u E].
  exists u. rewrite E. reflexivity.
Defined.

(** ** Pacing when the scrapes return *)

Lemma paced_app (owed : bool) (a b : Trace) :
  paced owed (a ++ b) = paced owed a && paced (owed_after owed a) b.
Proof.
  revert owed. induction a as [|e a IH]; intros owed; [reflexivity|].
  cbn [app paced owed_after].
  destruct e as [l|b0 args|f ok|u|[n|lo hi]|f|]; try apply IH.
  rewrite IH, andb_assoc. reflexivity.
Qed.

Lemma owed_after_app (owed : bool) (a b : Trace) :
  owed_after owed (a ++ b) = owed_after (owed_after owed a) b.
Proof.
  revert owed. induction a as [|e a IH]; intros owed; [reflexivity|].
  cbn [app owed_after].
  destruct e as [l|b0 args|f ok|u|[n|lo hi]|f|]; apply IH.
Qed.

Lemma paced_prints (owed : bool) (ls : list Line) :
  paced owed (map EPrint ls) = true /\ owed_after owed (map EPrint ls) = owed.
Proof. induction ls; [split; reflexivity | exact IHls]. Qed.

(** X16: in a world where every scrape returns a profile, every run is
    paced: a pacing delay uniform(2.2, 4.313) lies between any scrape and
    the next one, and none is owed when the run ends. *)
Theorem paced_when_scrapes_return (w : World) :
  (forall h u, exists p, scrape w h u = inr p) ->
  paced false (fst (run w)) = true
  /\ owed_after false (fst (run w)) = false.
Proof.
  intros Hok.
  apply (run_closed w
           (fun tr => paced false tr = true /\ owed_after false tr = false)).
  - split; reflexivity.
  - intros a b [Ha1 Ha2] [Hb1 Hb2].
    rewrite paced_app, owed_after_app, Ha1, Ha2, Hb1, Hb2. split; reflexivity.
  - intros l _. split; reflexivity.
  - split; reflexivity.
  - intros ok. split; reflexivity.
  - split; reflexivity.
  - intros [index row] h. rewrite loop_body_run.
    destruct (no_linkedin_url (LinkedIn row)); [split; reflexivity|].
    destruct (Hok (h ++ announce index row) (clean_url (LinkedIn row)))
      as [p Hp].
    rewrite Hp. cbn [fst]. unfold success_events, announce.
    cbn [app paced owed_after negb andb].
    rewrite paced_app, owed_after_app.
    destruct (paced_prints true (report p)) as [-> ->].
    split; reflexivity.
Qed.

Lemma paced_when_scrapes_return_witness :
  paced false (fst (run Scenario.fine)) = true
  /\ owed_after false (fst (run Scenario.fine)) = false.
Proof.
  apply (paced_when_scrapes_return Scenario.fine).
  intros h u. exists Scenario.profile. reflexivity.
Defined.

(** ** The count on line 37 *)

(** X17: over a readable sheet a run starts with the reading line and the
    line "Found n candidates", where [n] counts every row that passes the
    mask, the rows later skipped for their missing URL included. *)
Theorem found_counts_retained_rows (w : World) (df : DataFrame) :
  path_exists w = true ->
  read_excel w = inr df ->
  has_Conclusion df = true ->
  firstn 2 (fst (run w))
  = [EPrint (LReading (excel_path w));
     EPrint (LFound (length (filter conclusion_is_yes (rows df))))].
Proof.
  intros Ex Rd Hc. rewrite main_run, Ex.
  unfold read_candidates. rewrite Rd, Hc.
  assert (E : length (candidates_of df)
              = length (filter conclusion_is_yes (rows df))).
  { unfold candidates_of, iterrows.
    rewrite <- (map_snd_filter_combine conclusion_is_yes (rows df) 0).
    rewrite length_map. reflexivity. }
  rewrite <- E.
  destruct (candidates_of df) as [|c cs]; [reflexivity|].
  cbn zeta. destruct (batch w (c :: cs) _) as [ev r]. reflexivity.
Qed.

Lemma found_counts_retained_rows_witness :
  firstn 2 (fst (run Edge.carol_only))
  = [EPrint (LReading "/repo/Alumni Shared.xlsx"); EPrint (LFound 1)].
Proof.
  exact (found_counts_retained_rows Edge.carol_only
           (mkDF true [Scenario.bob; Scenario.carol]) eq_refl eq_refl eq_refl).
Defined.

(** ** Which rows a run attempts *)

Lemma attempts_from_app (cur : option nat) (a b : Trace) :
  attempts_from cur (a ++ b)
  = attempts_from cur a ++ attempts_from (label_after cur a) b.
Proof.
  revert cur. induction a as [|e a IH]; intros cur; [reflexivity|].
  cbn [app attempts_from label_after].
  destruct e as [l|b0 args|f ok|u|d|f|]; try apply IH.
  - destruct l; apply IH.
  - destruct cur; cbn [app]; rewrite IH; reflexivity.
Qed.

Lemma label_after_app (cur : option nat) (a b : Trace) :
  label_after cur (a ++ b) = label_after (label_after cur a) b.
Proof.
  revert cur. induction a as [|e a IH]; intros cur; [reflexivity|].
  cbn [app label_after].
  destruct e as [l|b0 args|f ok|u|d|f|]; try apply IH.
  destruct l; apply IH.
Qed.

Lemma report_keeps_label (cur : option nat) (p : Person) :
  attempts_from cur (map EPrint (report p)) = []
  /\ label_after cur (map EPrint (report p)) = cur.
Proof.
  unfold report.
  destruct (experiences p) as [|x1 [|x2 xs]];
    destruct (educations p) as [|y1 [|y2 ys]]; split; reflexivity.
Qed.

(** A pass adds the attempt of its row, whatever was announced before. *)
Lemma attempts_of_pass (w : World) (cur : option nat) (ir : nat * Row)
    (h : Trace) :
  attempts_from cur (fst (loop_body w ir h)) = attempt_of_pass ir.
Proof.
  destruct ir as [index row]. unfold attempt_of_pass. cbn [fst snd].
  rewrite loop_body_run.
  destruct (no_linkedin_url (LinkedIn row)); [reflexivity|].
  destruct (scrape w _ _) as [e|p]; cbn zeta.
  - destruct (screenshot w _ _); reflexivity.
  - cbn [fst]. unfold success_events, announce.
    cbn [app attempts_from].
    rewrite attempts_from_app.
    destruct (report_keeps_label (Some index) p) as [-> ->]. reflexivity.
Qed.

Lemma attempts_of_loop (w : World) (candidates : list (nat * Row))
    (cur : option nat) (h : Trace) :
  exists n,
    attempts_from cur (fst (for_each (loop_body w) candidates h))
    = flat_map attempt_of_pass (firstn n candidates)
    /\ (snd (for_each (loop_body w) candidates h) = Returned tt ->
        n = length candidates).
Proof.
  revert cur h. induction candidates as [|c cs IH]; intros cur h.
  - exists 0. split; reflexivity.
  - rewrite for_each_cons.
    pose proof (attempts_of_pass w cur c h) as Hc.
    destruct (loop_body w c h) as [ev [[]|e]]; cbn [fst snd] in *.
    + destruct (IH (label_after cur ev) (h ++ ev)) as (n & Hat & Hret).
      destruct (for_each (loop_body w) cs (h ++ ev)) as [ev' r];
        cbn [fst snd] in *.
      exists (S n). cbn [length firstn flat_map]. split.
      * rewrite attempts_from_app, Hc, Hat. reflexivity.
      * intros Hr. rewrite (Hret Hr). reflexivity.
    + exists 1. cbn [firstn flat_map]. rewrite app_nil_r.
      split; [exact Hc | discriminate].
Qed.

(** Over a readable sheet the attempts of a run are those of the first
    candidates, in order, and of all of them when the run returns. *)
Lemma attempts_of_run (w : World) (df : DataFrame) :
  path_exists w = true ->
  read_excel w = inr df ->
  has_Conclusion df = true ->
  exists n,
    attempts (fst (run w)) = flat_map attempt_of_pass (firstn n (candidates_of df))
    /\ (snd (run w) = Returned tt -> n = length (candidates_of df)).
Proof.
  intros Ex Rd Hc. unfold attempts. rewrite main_run, Ex.
  unfold read_candidates. rewrite Rd, Hc.
  destruct (candidates_of df) as [|c cs].
  - exists 0. split; reflexivity.
  - cbn zeta. rewrite batch_run. cbn zeta.
    set (pre := preamble w (length (c :: cs)) ++ opened).
    destruct (attempts_of_loop w (c :: cs) None
                (pre ++ fst (restore_session w pre))) as (n & Hat & Hret).
    destruct (for_each (loop_body w) (c :: cs) _) as [ev r]; cbn [fst snd] in *.
    exists n. split; [|exact Hret].
    assert (Epre : attempts_from None pre = [] /\ label_after None pre = None)
      by (split; reflexivity).
    destruct Epre as [Ea El].
    assert (E0 : attempts_from None (fst (restore_session w pre)) = []
                 /\ label_after None (fst (restore_session w pre)) = None).
    { rewrite restore_session_run. destruct (load_session w pre);
        split; reflexivity. }
    destruct E0 as [Ea0 El0].
    rewrite attempts_from_app, Ea, El.
    rewrite attempts_from_app, attempts_from_app, Ea0, El0, Hat.
    cbn [app]. destruct r; cbn; rewrite app_nil_r; reflexivity.
Qed.

Lemma in_firstn {A} (n : nat) (l : list A) (x : A) :
  In x (firstn n l) -> In x l.
Proof.
  intros H. rewrite <- (firstn_skipn n l). apply in_or_app. left. exact H.
Qed.

(** C1, as worded, fails.  In the sheet [Bob "No"; Erin " Yes"; Dave "yes"]
    Erin's conclusion trims and folds to "yes" and her URL is present, so
    the wording makes her row a candidate; the run, which returns, scrapes
    Dave's URL under label 2 and nothing else: the mask of line 35 does not
    trim, and Erin's row, label 1, is never attempted. *)
Lemma padded_yes_never_scraped :
  nth_error (rows Padded.sheet) 1 = Some padded_yes
  /\ spec_yields_candidate padded_yes = true
  /\ snd (run Padded.world) = Returned tt
  /\ attempts (fst (run Padded.world)) = [(2, "https://x/d"%string)]
  /\ ~ (In (1, clean_url (LinkedIn padded_yes)) (attempts (fst (run Padded.world)))
        <-> spec_yields_candidate padded_yes = true).
Proof.
  repeat split; try reflexivity.
  intros [_ H]. specialize (H eq_refl). vm_compute in H.
  destruct H as [H|[]]. discriminate H.
Qed.

(** C1, amended.  Over a readable sheet, for the row [r] at position [i]:
    whenever the run calls the scraper for that row it does so with the
    cleaned LinkedIn value, and the row's conclusion, absent taken as the
    empty string and lower-cased but not trimmed, is "yes" and its LinkedIn
    value is truthy and not a missing-value marker; and in a run that
    returns, every row of which this holds is attempted. *)
Theorem row_attempted_iff (w : World) (df : DataFrame) (i : nat) (r : Row) :
  path_exists w = true ->
  read_excel w = inr df ->
  has_Conclusion df = true ->
  nth_error (rows df) i = Some r ->
  let accepted :=
    PyStr.lower (py_str (fillna_empty (Conclusion r))) = "yes"%string
    /\ truthy (LinkedIn r) = true
    /\ isna (LinkedIn r) = false in
  (forall u, In (i, u) (attempts (fst (run w))) ->
             u = clean_url (LinkedIn r) /\ accepted)
  /\ (snd (run w) = Returned tt ->
      (In (i, clean_url (LinkedIn r)) (attempts (fst (run w))) <-> accepted)).
Proof.
  intros Ex Rd Hc Hnth accepted.
  destruct (attempts_of_run w df Ex Rd Hc) as (n & Hat & Hret).
  assert (Hcand : forall j r', In (j, r') (candidates_of df) <->
                    nth_error (rows df) j = Some r' /\ conclusion_is_yes r' = true).
  { intros j r'. unfold candidates_of, iterrows.
    rewrite filter_In, in_combine_seq. cbn [snd]. rewrite Nat.sub_0_r.
    intuition lia. }
  assert (Hacc : accepted <->
                 conclusion_is_yes r = true /\ no_linkedin_url (LinkedIn r) = false).
  { subst accepted. unfold conclusion_is_yes, no_linkedin_url.
    rewrite String.eqb_eq.
    destruct (truthy (LinkedIn r)), (isna (LinkedIn r)); cbn;
      intuition congruence. }
  assert (Hfwd : forall u, In (i, u) (attempts (fst (run w))) ->
                   u = clean_url (LinkedIn r) /\ accepted).
  { intros u Hin. rewrite Hat in Hin. apply in_flat_map in Hin.
    destruct Hin as ([j r'] & Hj & Hp).
    apply in_firstn in Hj. apply Hcand in Hj. destruct Hj as [Hj Hy].
    unfold attempt_of_pass in Hp. cbn [fst snd] in Hp.
    destruct (no_linkedin_url (LinkedIn r')) eqn:Hu; [contradiction|].
    destruct Hp as [Hp|[]]. injection Hp as -> <-.
    rewrite Hnth in Hj. injection Hj as <-.
    split; [reflexivity|]. apply Hacc. split; assumption. }
  split; [exact Hfwd|].
  intros Hr. split; [intros Hin; exact (proj2 (Hfwd _ Hin))|].
  intros Ha. apply Hacc in Ha. destruct Ha as [Hy Hu].
  rewrite Hat, (Hret Hr), firstn_all. apply in_flat_map.
  exists (i, r). split; [apply Hcand; split; assumption|].
  unfold attempt_of_pass. cbn [fst snd]. rewrite Hu. left. reflexivity.
Qed.

Lemma row_attempted_iff_witness :
  In (3, "https://x/d"%string) (attempts (fst (run Scenario.alice_down)))
  /\ ~ In (1, "https://x/b"%string) (attempts (fst (run Scenario.alice_down))).
Proof.
  split.
  - destruct (row_attempted_iff Scenario.alice_down Scenario.sheet 3
                Scenario.dave eq_refl eq_refl eq_refl eq_refl) as [_ H].
    apply (H eq_refl). repeat split; reflexivity.
  - intros Hin.
    destruct (row_attempted_iff Scenario.alice_down Scenario.sheet 1
                Scenario.bob eq_refl eq_refl eq_refl eq_refl) as [H _].
    destruct (H _ Hin) as [_ [Hy _]]. discriminate Hy.
Defined.
